(** * State-name cleaning for the UIDAI datasets

    A shallow embedding of [data_preprocessing_scripts/clean_state_names.py]
    and the properties of its normaliser, alias table, column cleaner,
    backup step and batch driver. *)

From Stdlib Require Import ZArith Ascii String DecimalString Lia.
From stdpp Require Import base option list strings gmap.

Local Open Scope Z_scope.

(** ** Python [str] values

    A Python [str] is modelled by a Rocq [string] whose characters are the
    code points U+0000..U+00FF, which covers the transliterated Latin text
    the table is written in.  Every method below follows CPython on that
    range. *)

Module PyStr.

(** [str.isspace] for one character: TAB..CR, FS..US, SPACE, NEL, NBSP. *)
Definition isspace (c : ascii) : bool :=
  let n := N_of_ascii c in
  ((9 <=? n) && (n <=? 13) || (28 <=? n) && (n <=? 32)
   || (n =? 133) || (n =? 160))%N.

(** [str.lower] for one character: A-Z and the Latin-1 capitals
    U+00C0..U+00DE (the multiplication sign U+00D7 excepted). *)
Definition lower_char (c : ascii) : ascii :=
  let n := N_of_ascii c in
  if ((65 <=? n) && (n <=? 90)
      || (192 <=? n) && (n <=? 222) && negb (n =? 215))%N
  then ascii_of_N (n + 32) else c.

Fixpoint lower (s : string) : string :=
  match s with
  | EmptyString => EmptyString
  | String c s' => String (lower_char c) (lower s')
  end.

Fixpoint lstrip (s : string) : string :=
  match s with
  | EmptyString => EmptyString
  | String c s' => if isspace c then lstrip s' else s
  end.

Definition rstrip (s : string) : string :=
  String.rev (lstrip (String.rev s)).

(** [s.strip()] *)
Definition strip (s : string) : string := rstrip (lstrip s).

(** [s.split()]: the maximal runs of non-whitespace characters, in order.
    [cur] is the run being read, reversed. *)
Fixpoint split_go (cur : string) (s : string) : list string :=
  match s with
  | EmptyString =>
      match cur with EmptyString => [] | _ => [String.rev cur] end
  | String c s' =>
      if isspace c
      then match cur with
           | EmptyString => split_go EmptyString s'
           | _ => String.rev cur :: split_go EmptyString s'
           end
      else split_go (String c cur) s'
  end.

Definition split (s : string) : list string := split_go EmptyString s.

(** [sep.join(parts)] *)
Fixpoint join (sep : string) (parts : list string) : string :=
  match parts with
  | [] => EmptyString
  | [p] => p
  | p :: rest => p +:+ sep +:+ join sep rest
  end.

Fixpoint startswith (s prefix : string) : bool :=
  match prefix, s with
  | EmptyString, _ => true
  | String p prefix', String c s' =>
      if Ascii.eqb p c then startswith s' prefix' else false
  | String _ _, EmptyString => false
  end.

(** [s.replace(old, new)] for a non-empty [old]: leftmost, non-overlapping
    matches.  [skip] counts the characters of a match still to be passed. *)
Fixpoint replace_go (old new : string) (skip : nat) (s : string) : string :=
  match s with
  | EmptyString => EmptyString
  | String c s' =>
      match skip with
      | S k => replace_go old new k s'
      | O =>
          if startswith s old
          then new +:+ replace_go old new (Nat.pred (String.length old)) s'
          else String c (replace_go old new O s')
      end
  end.

(** With an empty [old], Python inserts [new] before every character and
    at the end. *)
Fixpoint intersperse (new : string) (s : string) : string :=
  match s with
  | EmptyString => new
  | String c s' => new +:+ String c (intersperse new s')
  end.

Definition replace (s old new : string) : string :=
  match old with
  | EmptyString => intersperse new s
  | _ => replace_go old new O s
  end.

(** [str(z)] for an integer. *)
Definition of_Z (z : Z) : string := NilZero.string_of_int (Z.to_int z).

End PyStr.

(** ** Cells of a column

    [clean_state_name] looks at its argument only through [pd.isna] and
    [str]; a cell is modelled accordingly. *)

Inductive cell : Type :=
  | NaN                     (* a missing value: NaN, None, pd.NA *)
  | Str (s : string)        (* a Python str *)
  | Int (z : Z)             (* an integer *)
  | Obj (repr : string).    (* any other scalar, given by the text [str] returns *)

#[global] Instance cell_eq_dec : EqDecision cell.
Proof. solve_decision. Defined.

(** [pd.isna(state_value)] *)
Definition isna (state_value : cell) : bool :=
  match state_value with NaN => true | _ => false end.

(** [str(state_value)] *)
Definition str (state_value : cell) : string :=
  match state_value with
  | NaN => "nan"
  | Str s => s
  | Int z => PyStr.of_Z z
  | Obj repr => repr
  end.

(** ** The alias table *)

(** The entries of the [STATE_NAME_MAP] literal, in source order. *)
Definition STATE_NAME_MAP_items : list (string * string) :=
  [ ("andaman and nicobar islands", "andaman and nicobar islands");
    ("andhra pradesh", "andhra pradesh");
    ("arunachal pradesh", "arunachal pradesh");
    ("assam", "assam");
    ("bihar", "bihar");
    ("chandigarh", "chandigarh");
    ("chhattisgarh", "chhattisgarh");
    ("dadra and nagar haveli and daman and diu",
     "dadra and nagar haveli and daman and diu");
    ("delhi", "delhi");
    ("goa", "goa");
    ("gujarat", "gujarat");
    ("haryana", "haryana");
    ("himachal pradesh", "himachal pradesh");
    ("jammu and kashmir", "jammu and kashmir");
    ("jharkhand", "jharkhand");
    ("karnataka", "karnataka");
    ("kerala", "kerala");
    ("ladakh", "ladakh");
    ("lakshadweep", "lakshadweep");
    ("madhya pradesh", "madhya pradesh");
    ("maharashtra", "maharashtra");
    ("manipur", "manipur");
    ("meghalaya", "meghalaya");
    ("mizoram", "mizoram");
    ("nagaland", "nagaland");
    ("odisha", "odisha");
    ("puducherry", "puducherry");
    ("punjab", "punjab");
    ("rajasthan", "rajasthan");
    ("sikkim", "sikkim");
    ("tamil nadu", "tamil nadu");
    ("telangana", "telangana");
    ("tripura", "tripura");
    ("uttar pradesh", "uttar pradesh");
    ("uttarakhand", "uttarakhand");
    ("west bengal", "west bengal");
    (* Andaman & Nicobar Islands *)
    ("andaman & nicobar islands", "andaman and nicobar islands");
    ("andaman & nicobar", "andaman and nicobar islands");
    ("andaman and nicobar", "andaman and nicobar islands");
    ("a & n islands", "andaman and nicobar islands");
    ("a&n islands", "andaman and nicobar islands");
    (* Delhi *)
    ("nct of delhi", "delhi");
    ("new delhi", "delhi");
    ("national capital territory of delhi", "delhi");
    (* Chhattisgarh *)
    ("chattisgarh", "chhattisgarh");
    ("chhatisgarh", "chhattisgarh");
    (* Dadra & Nagar Haveli and Daman & Diu *)
    ("dadra and nagar haveli", "dadra and nagar haveli and daman and diu");
    ("dadra & nagar haveli", "dadra and nagar haveli and daman and diu");
    ("dnh", "dadra and nagar haveli and daman and diu");
    ("daman and diu", "dadra and nagar haveli and daman and diu");
    ("daman & diu", "dadra and nagar haveli and daman and diu");
    ("diu", "dadra and nagar haveli and daman and diu");
    ("daman", "dadra and nagar haveli and daman and diu");
    (* Jammu & Kashmir *)
    ("jammu & kashmir", "jammu and kashmir");
    ("j&k", "jammu and kashmir");
    ("j & k", "jammu and kashmir");
    (* Odisha *)
    ("orissa", "odisha");
    (* Puducherry *)
    ("pondicherry", "puducherry");
    ("pondy", "puducherry");
    (* Tamil Nadu *)
    ("tamilnadu", "tamil nadu");
    ("tn", "tamil nadu");
    (* Uttar Pradesh *)
    ("uttarpradesh", "uttar pradesh");
    ("up", "uttar pradesh");
    ("u.p.", "uttar pradesh");
    (* Uttarakhand *)
    ("uttaranchal", "uttarakhand");
    (* West Bengal *)
    ("westbengal", "west bengal");
    ("w.b.", "west bengal");
    ("wb", "west bengal");
    (* Madhya Pradesh *)
    ("madhyapradesh", "madhya pradesh");
    ("mp", "madhya pradesh");
    ("m.p.", "madhya pradesh");
    (* Himachal Pradesh *)
    ("himachalpradesh", "himachal pradesh");
    ("hp", "himachal pradesh");
    ("h.p.", "himachal pradesh");
    (* Arunachal Pradesh *)
    ("arunachalpradesh", "arunachal pradesh");
    (* Andhra Pradesh *)
    ("andhrapradesh", "andhra pradesh");
    ("ap", "andhra pradesh");
    (* Lakshadweep *)
    ("laccadive", "lakshadweep");
    ("lakshadweep islands", "lakshadweep") ].

(** A dict display evaluates its entries left to right, a later entry
    replacing an earlier one with the same key. *)
Definition dict_of_items (items : list (string * string)) : gmap string string :=
  foldl (fun d kv => <[kv.1 := kv.2]> d) ∅ items.

Definition STATE_NAME_MAP : gmap string string :=
  dict_of_items STATE_NAME_MAP_items.

(** The value returned for anything the table does not know. *)
Definition INVALID_STATE : string := "INVALID_STATE".

(** ** Standard output

    What the script prints is kept as the sequence of the diagnostics it
    carries, one constructor per [print] call with the values interpolated
    into it.  Banners, the "Loading"/"Loaded" progress lines and the two
    [value_counts] tables carry nothing the properties below speak of and
    are left out. *)

Inductive exn : Type :=
  | FileNotFoundError (filename : string)
  | KeyError (key : string)
  | PandasError (msg : string)    (* EmptyDataError, ParserError, ... *)
  | ValueError (msg : string)     (* the message, or the label selected twice *)
  | OSError (filename : string).  (* a file that cannot be written *)

Inductive event : Type :=
  | Unrecognized (state_value : cell) (state_clean : string)
      (* "Warning: Unrecognized state name: '..' (cleaned: '..')" *)
  | Total_rows (n : nat)
  | Invalid_count (invalid_count : nat)
      (* "WARNING: n rows have INVALID_STATE" *)
  | Invalid_sample (sample : cell)
      (* one line "  - sample" under "Invalid state examples:" *)
  | All_standardized
  | Creating_backup (backup_file : string)
  | Saving_to (output_file : string)
  | Saved_rows (n : nat)
  | File_not_found (input_file : string)
      (* "Warning: File not found: .." *)
  | Error_processing (input_file : string) (e : exn)
      (* "Error processing ..: str(e)" *)
  | All_processing_complete
  | Cleaned_file (output_file : string).
      (* one line "  - output_file" under "Cleaned files created:" *)

#[global] Instance exn_eq_dec : EqDecision exn.
Proof. solve_decision. Defined.

#[global] Instance event_eq_dec : EqDecision event.
Proof. solve_decision. Defined.

(** ** Cleaning one value *)

(** Lines 155-161: the successive values of the local [state_clean]. *)
Definition normalize (state_value : cell) : string :=
  let state_clean := PyStr.lower (PyStr.strip (str state_value)) in
  let state_clean := PyStr.join " " (PyStr.split state_clean) in
  let state_clean := PyStr.replace state_clean "&" "and" in
  state_clean.

(** [clean_state_name] only prints; it is given as the value it returns
    together with what it printed. *)
Definition clean_state_name (state_value : cell) : string * list event :=
  if isna state_value then (INVALID_STATE, [])
  else
    let state_clean := normalize state_value in
    match STATE_NAME_MAP !! state_clean with
    | Some name => (name, [])
    | None => (INVALID_STATE, [Unrecognized state_value state_clean])
    end.

(** ** Cleaning any Python value

    A column read from a file holds scalars, and [clean_state_name] above
    is the function on those.  Called on a list or an array of two or more
    values, [pd.isna] answers with an array of booleans, one for each
    element, and the [if] of line 151 cannot decide such an array. *)

      (* two or more elements; [repr] is the text [str] returns *)






(** ** Files, output and exceptions *)

Record World : Type := mkWorld {
  fs : gmap string string;      (* path |-> contents of the file *)
  stdout : list event           (* oldest first *)
}.

(** A computation either raises or returns, and in both cases leaves a
    world behind. *)
Definition IO (A : Type) : Type := World -> (exn + A) * World.

Definition ret {A} (a : A) : IO A := fun w => (inr a, w).

Definition bind {A B} (m : IO A) (k : A -> IO B) : IO B :=
  fun w => match m w with
           | (inr a, w') => k a w'
           | (inl e, w') => (inl e, w')
           end.

Definition raise {A} (e : exn) : IO A := fun w => (inl e, w).

Definition print (out : list event) : IO unit :=
  fun w => (inr tt, mkWorld (fs w) (stdout w ++ out)).

(** [try: m except e: h e] *)
Definition try_except {A} (m : IO A) (h : exn -> IO A) : IO A :=
  fun w => match m w with
           | (inr a, w') => (inr a, w')
           | (inl e, w') => h e w'
           end.

Notation "x <- m ;; k" := (bind m (fun x => k))
  (at level 100, m at next level, right associativity).
Notation "m ;;; k" := (bind m (fun _ => k))
  (at level 100, right associativity).

(** A function that only prints, run inside [IO]. *)
Definition printing {A} (r : A * list event) : IO A :=
  print r.2 ;;; ret r.1.

(** ** DataFrames *)

Definition Series : Type := list cell.

(** The columns of a frame, left to right, each with its label. *)
Definition DataFrame : Type := list (string * Series).

(** [len(df)] *)
Definition len (df : DataFrame) : nat :=
  match df with
  | [] => O
  | (_, s) :: _ => length s
  end.

(** [df.columns] *)
Definition columns (df : DataFrame) : list string := df.*1.

(** [df[column_name]] used as a Series: a [KeyError] when there is no such
    column.  When the label is there more than once pandas selects a frame
    instead, and the first thing the script does with it, [value_counts] at
    line 188, raises [ValueError] ("Grouper for .. not 1-dimensional"). *)
Fixpoint getitem (df : DataFrame) (column_name : string) : exn + Series :=
  match df with
  | [] => inl (KeyError column_name)
  | (label, s) :: df' =>
      if decide (label = column_name)
      then if bool_decide (column_name ∈ df'.*1)
           then inl (ValueError column_name) else inr s
      else getitem df' column_name
  end.

(** [df[column_name] = s] for a column that is already there: the data
    under the label is replaced, the column keeps its place. *)
Fixpoint setitem (df : DataFrame) (column_name : string) (s : Series)
  : DataFrame :=
  match df with
  | [] => [(column_name, s)]
  | (label, s0) :: df' =>
      if decide (label = column_name) then (label, s) :: df'
      else (label, s0) :: setitem df' column_name s
  end.

(** [s.apply(f)] for a printing [f]: the function is called on the cells
    in index order. *)
Fixpoint apply (f : cell -> string * list event) (s : Series) : IO Series :=
  match s with
  | [] => ret []
  | v :: s' =>
      r <- printing (f v) ;;
      rs <- apply f s' ;;
      ret (Str r :: rs)
  end.

(** [s == text], the boolean mask. *)
Definition series_eq (s : Series) (text : string) : list bool :=
  map (fun v => bool_decide (v = Str text)) s.

(** [mask.sum()] *)
Definition mask_sum (mask : list bool) : nat :=
  length (filter (fun b => b = true) mask).

(** [s[mask]]: the cells whose mask entry is true. *)
Fixpoint select (s : Series) (mask : list bool) : Series :=
  match s, mask with
  | v :: s', b :: mask' => if b then v :: select s' mask' else select s' mask'
  | _, _ => []
  end.

(** [s.head(n)] *)
Definition head (n : nat) (s : Series) : Series := take n s.

Definition lift {A} (r : exn + A) : IO A :=
  match r with inl e => raise e | inr a => ret a end.

(** ** Cleaning a column *)

Definition clean_state_column (df : DataFrame) (column_name : string)
  : IO DataFrame :=
  original <- lift (getitem df column_name) ;;
  print [Total_rows (len df)] ;;;
  (* df[column_name] = df[column_name].apply(clean_state_name) *)
  cleaned <- apply clean_state_name original ;;
  let df := setitem df column_name cleaned in
  column <- lift (getitem df column_name) ;;
  let invalid_count := mask_sum (series_eq column INVALID_STATE) in
  (if decide (0 < invalid_count)%nat then
     print [Invalid_count invalid_count] ;;;
     column <- lift (getitem df column_name) ;;
     let invalid_samples :=
       head 10 (select column (series_eq column INVALID_STATE)) in
     print (Invalid_sample <$> invalid_samples)
   else
     print [All_standardized]) ;;;
  ret df.

(** ** Reading and writing CSV files

    [pd.read_csv] and [DataFrame.to_csv] belong to pandas, not to the
    script: the text of a frame and the frame of a text are taken as an
    interface, together with the paths at which a file can be written
    (the directory is there, the file is not protected), which do not
    change during a run. *)

Class Csv : Type := {
  csv_parse : string -> exn + DataFrame;
  csv_format : DataFrame -> string;
  csv_can_write : string -> bool
}.

Section Script.

Context `{Csv}.

(** What [pd.read_csv(path)] returns or raises, given the files. *)
Definition load (files : gmap string string) (path : string)
  : exn + DataFrame :=
  match files !! path with
  | None => inl (FileNotFoundError path)
  | Some text => csv_parse text
  end.

(** [pd.read_csv(path)] *)
Definition read_csv (path : string) : IO DataFrame :=
  fun w => lift (load (fs w) path) w.

(** [df.to_csv(path, index=False)]: an [OSError] and no file when the path
    cannot be written. *)
Definition to_csv (df : DataFrame) (path : string) : IO unit :=
  fun w =>
    if csv_can_write path
    then (inr tt, mkWorld (<[path := csv_format df]> (fs w)) (stdout w))
    else (inl (OSError path), w).

Definition process_csv_file (input_file : string)
    (output_file : option string) (state_column : string) : IO DataFrame :=
  df <- read_csv input_file ;;
  df <- clean_state_column df state_column ;;
  output_file <-
    match output_file with
    | None =>
        let backup_file :=
          PyStr.replace input_file ".csv" "_BACKUP.csv" in
        print [Creating_backup backup_file] ;;;
        df_original <- read_csv input_file ;;
        to_csv df_original backup_file ;;;
        ret input_file
    | Some output_file => ret output_file
    end ;;
  print [Saving_to output_file] ;;;
  to_csv df output_file ;;;
  print [Saved_rows (len df)] ;;;
  ret df.

Definition files_to_process : list (string * string) :=
  [ ("data/enrollment.csv", "data/enrollment_cleaned_states.csv");
    ("data/demographic.csv", "data/demographic_cleaned_states.csv");
    ("data/biometric.csv", "data/biometric_cleaned_states.csv") ].

(** One turn of the [for] loop of the batch branch. *)
Definition process_guarded (input_file output_file : string) : IO unit :=
  try_except
    (process_csv_file input_file (Some output_file) "state" ;;; ret tt)
    (fun e =>
       match e with
       | FileNotFoundError _ => print [File_not_found input_file]
       | _ => print [Error_processing input_file e]
       end).

Fixpoint process_all (files : list (string * string)) : IO unit :=
  match files with
  | [] => ret tt
  | (input_file, output_file) :: rest =>
      process_guarded input_file output_file ;;; process_all rest
  end.

(** The [__main__] block; [argv] is [sys.argv], the script name first. *)
Definition main (argv : list string) : IO unit :=
  if decide (1 < length argv)%nat then
    let input_file := default "" (argv !! 1%nat) in
    let output_file := argv !! 2%nat in
    process_csv_file input_file output_file "state" ;;; ret tt
  else
    process_all files_to_process ;;;
    print [All_processing_complete] ;;;
    print (Cleaned_file <$> files_to_process.*2).

End Script.

(** ** A plain CSV codec

    For running the script on concrete files: comma-separated fields, one
    record per line, no quoting.  It agrees with pandas on files and frames
    whose labels are distinct and whose fields are unquoted text that is
    not empty, not numeric and not one of the markers pandas reads as a
    missing value. *)

Module PlainCsv.

Definition LF : ascii := ascii_of_nat 10.
Definition comma : ascii := ascii_of_nat 44.

(** [s.split(sep)] for a one-character [sep]; [cur] is reversed. *)
Fixpoint split_on_go (sep : ascii) (cur : string) (s : string)
  : list string :=
  match s with
  | EmptyString => [String.rev cur]
  | String c s' =>
      if Ascii.eqb c sep
      then String.rev cur :: split_on_go sep EmptyString s'
      else split_on_go sep (String c cur) s'
  end.

Definition split_on (sep : ascii) (s : string) : list string :=
  split_on_go sep EmptyString s.

Definition field_of_cell (v : cell) : string :=
  match v with NaN => "" | _ => str v end.

Definition cell_of_field (f : string) : cell :=
  if decide (f = "") then NaN else Str f.

(** Row [i] of a frame, one cell per column. *)
Definition row (df : DataFrame) (i : nat) : list cell :=
  map (fun c => default NaN (c.2 !! i)) df.

Definition line (fields : list string) : string :=
  PyStr.join (String comma "") fields +:+ String LF "".

Definition format (df : DataFrame) : string :=
  line (columns df) +:+
  foldr String.app ""
    (map (fun i => line (field_of_cell <$> row df i)) (seq 0 (len df))).

(** Column [j] of the records, short records padded with NaN. *)
Definition column (records : list (list string)) (j : nat) : Series :=
  map (fun r => from_option cell_of_field NaN (r !! j)) records.

Definition parse (text : string) : exn + DataFrame :=
  let lines := filter (fun l => l <> "") (split_on LF text) in
  match lines with
  | [] => inl (PandasError "No columns to parse from file")
  | header :: body =>
      let labels := split_on comma header in
      let records := split_on comma <$> body in
      if decide (Forall (fun r => length r <= length labels)%nat records)
      then inr (imap (fun j label => (label, column records j)) labels)
      else inl (PandasError "Error tokenizing data")
  end.

(** Every path can be written. *)
Definition codec : Csv :=
  {| csv_parse := parse; csv_format := format;
     csv_can_write := fun _ => true |}.

(** The paths of [locked] cannot be written. *)
Definition codec_locked (locked : list string) : Csv :=
  {| csv_parse := parse; csv_format := format;
     csv_can_write := fun path => bool_decide (path ∉ locked) |}.

End PlainCsv.

(** ** Views used in the statements *)

(** The canonical names: the range of the table. *)
Definition canonical_names : gset string := map_img STATE_NAME_MAP.

(** The cleaned text of every cell of a series. *)
Definition cleaned (s : Series) : Series :=
  map (fun v => Str (clean_state_name v).1) s.

(** Everything [clean_state_name] prints over a series. *)
Definition warnings (s : Series) : list event :=
  flat_map (fun v => (clean_state_name v).2) s.

(** The cell at column [c], row [i], if there is one. *)
Definition at_ (df : DataFrame) (c : string) (i : nat) : option cell :=
  match getitem df c with
  | inr s => s !! i
  | inl _ => None
  end.

(** The invariant of a frame: distinct labels, columns of one length. *)
Definition wf (df : DataFrame) : Prop :=
  NoDup (columns df) /\ Forall (fun c => length c.2 = len df) df.

(** [df.to_dict('records')]: the rows in order, each with its fields in
    column order. *)
Definition records (df : DataFrame) : list (list (string * cell)) :=
  map (fun i => map (fun c => (c.1, default NaN (c.2 !! i))) df)
    (seq 0 (len df)).

(** A record with the field [col] cleaned. *)
Definition clean_record (col : string) (r : list (string * cell))
  : list (string * cell) :=
  map (fun f => if decide (f.1 = col)
                then (f.1, Str (clean_state_name f.2).1) else f) r.

(** The samples listed under "Invalid state examples:". *)
Definition invalid_samples (out : list event) : list cell :=
  omap (fun e => match e with Invalid_sample v => Some v | _ => None end) out.


(** The line a failed dataset leaves in the batch branch. *)
Definition report (input_file : string) (e : exn) : event :=
  match e with
  | FileNotFoundError _ => File_not_found input_file
  | _ => Error_processing input_file e
  end.

(** What [clean_state_column] prints for a frame whose column is [s]. *)
Definition column_report (df : DataFrame) (s : Series) : list event :=
  let invalid_count := mask_sum (series_eq (cleaned s) INVALID_STATE) in
  [Total_rows (len df)] ++ warnings s ++
  (if decide (0 < invalid_count)%nat then
     Invalid_count invalid_count ::
     (Invalid_sample <$>
        head 10 (select (cleaned s) (series_eq (cleaned s) INVALID_STATE)))
   else [All_standardized]).

Definition example_df : DataFrame :=
  [("state", [Str "U.P."; Str "TN"; Str "Mars"])].

Definition w0 : World := mkWorld ∅ [].

Definition example_cleaned : DataFrame :=
  [("state", [Str "uttar pradesh"; Str "tamil nadu"; Str "INVALID_STATE"])].

(** The example frame as a file, and the same records in a file whose
    last line is not terminated. *)
Definition example_text : string :=
  "state
U.P.
TN
Mars
".

Definition unterminated_text : string :=
  "state
U.P.
TN
Mars".

Definition example_world : World :=
  mkWorld {[ "data/states.csv" := example_text ]} [].

(** The files and the output after cleaning [example_world] in place. *)
Definition example_overwritten : World :=
  mkWorld
    (<["data/states.csv" := "state
uttar pradesh
tamil nadu
INVALID_STATE
"]> (<["data/states_BACKUP.csv" := example_text]> (fs example_world)))
    [Total_rows 3; Unrecognized (Str "Mars") "mars"; Invalid_count 1;
     Invalid_sample (Str "INVALID_STATE");
     Creating_backup "data/states_BACKUP.csv";
     Saving_to "data/states.csv"; Saved_rows 3].

Definition unterminated_world : World :=
  mkWorld {[ "data/states.csv" := unterminated_text ]} [].

(** A file whose name has no ".csv" in it. *)
Definition tsv_world : World :=
  mkWorld {[ "data/states.tsv" := example_text ]} [].

(** The files and the output when the input file of [example_world]
    cannot be written: the backup is there, the cleaned frame is not. *)
Definition example_backup_only : World :=
  mkWorld (<["data/states_BACKUP.csv" := example_text]> (fs example_world))
    [Total_rows 3; Unrecognized (Str "Mars") "mars"; Invalid_count 1;
     Invalid_sample (Str "INVALID_STATE");
     Creating_backup "data/states_BACKUP.csv";
     Saving_to "data/states.csv"].

(** Only the demographic dataset is there. *)
Definition batch_world : World :=
  mkWorld {[ "data/demographic.csv" := example_text ]} [].

(** ** Views used in the further properties *)

(** [old in s]: the text [old] occurs somewhere in [s]. *)
Fixpoint occurs (old s : string) : bool :=
  PyStr.startswith s old
  || match s with
     | EmptyString => false
     | String _ s' => occurs old s'
     end.

(** Every ampersand spelled out, one character at a time. *)
Fixpoint spell_out (s : string) : string :=
  match s with
  | EmptyString => EmptyString
  | String c s' =>
      if Ascii.eqb "&" c then "and" +:+ spell_out s'
      else String c (spell_out s')
  end.

(** A text without whitespace. *)
Fixpoint spaceless (s : string) : bool :=
  match s with
  | EmptyString => true
  | String c s' => negb (PyStr.isspace c) && spaceless s'
  end.

(** What [split] returns: texts that are not empty and hold no
    whitespace. *)
Definition is_word (w : string) : Prop := w <> "" /\ spaceless w = true.

(** A cell that is there and whose normal form is not a key. *)
Definition unrecognized (v : cell) : bool :=
  negb (isna v) && bool_decide (STATE_NAME_MAP !! normalize v = None).

(** A cell that cleans to the sentinel: missing or unrecognized. *)
Definition unresolved (v : cell) : bool := isna v || unrecognized v.

(** The closing lines of [clean_state_column] for [n] invalid rows. *)
Definition summary (n : nat) : list event :=
  match n with
  | O => [All_standardized]
  | S _ =>
      Invalid_count n
      :: replicate (Nat.min 10 n) (Invalid_sample (Str INVALID_STATE))
  end.

(** [len(s.value_counts())]: the number of distinct values, the missing
    ones left aside. *)
Definition nunique (s : Series) : nat :=
  length (remove_dups (filter (fun v => isna v = false) s)).

(** The lines printed by [clean_state_name]. *)
Definition is_warning (e : event) : bool :=
  match e with Unrecognized _ _ => true | _ => false end.

(** The files and the output after cleaning [example_world] into a file
    of its own. *)
Definition example_exported : World :=
  mkWorld
    (<["data/states_clean.csv" := "state
uttar pradesh
tamil nadu
INVALID_STATE
"]> (fs example_world))
    [Total_rows 3; Unrecognized (Str "Mars") "mars"; Invalid_count 1;
     Invalid_sample (Str "INVALID_STATE");
     Saving_to "data/states_clean.csv"; Saved_rows 3].

(** * Properties *)

(** ** The table *)

Lemma dict_of_items_go_notin (items : list (string * string))
    (d : gmap string string) (k : string) :
  k ∉ items.*1 ->
  foldl (fun d kv => <[kv.1 := kv.2]> d) d items !! k = d !! k.
Proof.
  revert d. induction items as [|[k' c'] items IH]; intros d Hk; [done|].
  cbn in *. apply not_elem_of_cons in Hk as [Hne Hk].
  rewrite IH by done. by rewrite lookup_insert_ne.
Qed.

Lemma dict_of_items_go_Some (items : list (string * string))
    (d : gmap string string) (k c : string) :
  foldl (fun d kv => <[kv.1 := kv.2]> d) d items !! k = Some c ->
  (k, c) ∈ items \/ d !! k = Some c.
Proof.
  revert d. induction items as [|[k' c'] items IH]; intros d Hk; [by right|].
  cbn in Hk. apply IH in Hk as [Hin|Hd].
  - left. by right.
  - destruct (decide (k' = k)) as [->|Hne].
    + rewrite lookup_insert_eq in Hd. injection Hd as ->. left. by left.
    + rewrite lookup_insert_ne in Hd by done. by right.
Qed.

Lemma dict_of_items_go_elem (items : list (string * string))
    (d : gmap string string) (k c : string) :
  NoDup items.*1 -> (k, c) ∈ items ->
  foldl (fun d kv => <[kv.1 := kv.2]> d) d items !! k = Some c.
Proof.
  revert d. induction items as [|[k' c'] items IH]; intros d Hnd Hin.
  - by apply elem_of_nil in Hin.
  - cbn in *. apply NoDup_cons in Hnd as [Hk' Hnd].
    apply elem_of_cons in Hin as [Heq|Hin].
    + injection Heq as -> ->.
      rewrite dict_of_items_go_notin by done. by rewrite lookup_insert_eq.
    + by apply IH.
Qed.

Lemma STATE_NAME_MAP_keys_NoDup : NoDup STATE_NAME_MAP_items.*1.
Proof. apply (bool_decide_unpack _). by vm_compute. Qed.

Lemma STATE_NAME_MAP_lookup (k c : string) :
  STATE_NAME_MAP !! k = Some c <-> (k, c) ∈ STATE_NAME_MAP_items.
Proof.
  unfold STATE_NAME_MAP, dict_of_items. split.
  - intros Hk. apply dict_of_items_go_Some in Hk as [Hin|Hd]; [done|].
    by rewrite lookup_empty in Hd.
  - apply dict_of_items_go_elem, STATE_NAME_MAP_keys_NoDup.
Qed.

Lemma STATE_NAME_MAP_items_self :
  Forall (fun kv : string * string =>
            STATE_NAME_MAP !! kv.2 = Some kv.2
            /\ normalize (Str kv.2) = kv.2
            /\ clean_state_name (Str kv.2) = (kv.2, []))
    STATE_NAME_MAP_items.
Proof. apply (bool_decide_unpack _). by vm_compute. Qed.

Lemma canonical_names_lookup (c : string) :
  c ∈ canonical_names <-> exists k, STATE_NAME_MAP !! k = Some c.
Proof. unfold canonical_names. by rewrite elem_of_map_img. Qed.

(** ** One value *)

Lemma clean_state_name_miss (v : cell) :
  isna v = false -> STATE_NAME_MAP !! normalize v = None ->
  clean_state_name v = (INVALID_STATE, [Unrecognized v (normalize v)]).
Proof. intros Hna Hk. unfold clean_state_name. by rewrite Hna, Hk. Qed.

(** The value returned is the sentinel or comes out of the table. *)
Lemma clean_state_name_cases (v : cell) :
  (clean_state_name v).1 = INVALID_STATE
  \/ exists k, STATE_NAME_MAP !! k = Some (clean_state_name v).1.
Proof.
  unfold clean_state_name. destruct (isna v); [by left|].
  destruct (STATE_NAME_MAP !! normalize v) as [name|] eqn:Hk; [|by left].
  right. by exists (normalize v).
Qed.

Lemma clean_state_name_canonical (k c : string) :
  STATE_NAME_MAP !! k = Some c -> clean_state_name (Str c) = (c, []).
Proof.
  intros Hk%STATE_NAME_MAP_lookup.
  pose proof STATE_NAME_MAP_items_self as Hall.
  rewrite Forall_forall in Hall. by destruct (Hall _ Hk) as (_ & _ & ?).
Qed.

Lemma clean_state_name_sentinel :
  clean_state_name (Str INVALID_STATE)
  = (INVALID_STATE, [Unrecognized (Str INVALID_STATE) "invalid_state"]).
Proof. by vm_compute. Qed.

Lemma clean_state_name_twice (v : cell) :
  (clean_state_name (Str (clean_state_name v).1)).1 = (clean_state_name v).1.
Proof.
  destruct (clean_state_name_cases v) as [->|[k Hk]].
  - by rewrite clean_state_name_sentinel.
  - by rewrite (clean_state_name_canonical _ _ Hk).
Qed.

Lemma INVALID_STATE_not_key : STATE_NAME_MAP !! INVALID_STATE = None.
Proof. by vm_compute. Qed.

Lemma INVALID_STATE_not_canonical : INVALID_STATE ∉ canonical_names.
Proof. apply (bool_decide_unpack _). by vm_compute. Qed.

(** ** The normaliser, word by word *)

Lemma isspace_lower_char (c : ascii) :
  PyStr.isspace (PyStr.lower_char c) = PyStr.isspace c.
Proof. by destruct c as [[] [] [] [] [] [] [] []]. Qed.

Lemma lower_char_idemp (c : ascii) :
  PyStr.lower_char (PyStr.lower_char c) = PyStr.lower_char c.
Proof. by destruct c as [[] [] [] [] [] [] [] []]. Qed.

Lemma string_app_nil_l (s : string) : "" +:+ s = s.
Proof. reflexivity. Qed.

Lemma string_app_cons (c : ascii) (s t : string) :
  String c s +:+ t = String c (s +:+ t).
Proof. reflexivity. Qed.

Lemma string_app_nil_r (s : string) : s +:+ "" = s.
Proof.
  induction s as [|c s IH]; [done|]. by rewrite string_app_cons, IH.
Qed.

Lemma string_app_assoc (s t u : string) : (s +:+ t) +:+ u = s +:+ t +:+ u.
Proof.
  induction s as [|c s IH]; [done|]. by rewrite !string_app_cons, IH.
Qed.

Lemma rev_app_app (s acc : string) :
  String.rev_app s acc = String.rev s +:+ acc.
Proof.
  unfold String.rev. revert acc.
  induction s as [|c s IH]; intros acc; [done|].
  cbn [String.rev_app]. rewrite (IH (String c "")), IH.
  by rewrite string_app_assoc.
Qed.

Lemma rev_cons (c : ascii) (s : string) :
  String.rev (String c s) = String.rev s +:+ String c "".
Proof. unfold String.rev at 1. cbn [String.rev_app]. apply rev_app_app. Qed.

Lemma rev_app_distr (s t : string) :
  String.rev (s +:+ t) = String.rev t +:+ String.rev s.
Proof.
  induction s as [|c s IH].
  - by rewrite string_app_nil_l, string_app_nil_r.
  - by rewrite string_app_cons, !rev_cons, IH, string_app_assoc.
Qed.

Lemma rev_involutive (s : string) : String.rev (String.rev s) = s.
Proof.
  induction s as [|c s IH]; [done|].
  by rewrite rev_cons, rev_app_distr, IH.
Qed.

Lemma lower_app (s t : string) :
  PyStr.lower (s +:+ t) = PyStr.lower s +:+ PyStr.lower t.
Proof.
  induction s as [|c s IH]; [done|].
  rewrite string_app_cons. cbn [PyStr.lower].
  by rewrite string_app_cons, IH.
Qed.

Lemma lower_rev (s : string) :
  PyStr.lower (String.rev s) = String.rev (PyStr.lower s).
Proof.
  induction s as [|c s IH]; [done|]. cbn [PyStr.lower].
  by rewrite !rev_cons, lower_app, IH.
Qed.

Lemma lower_lower (s : string) : PyStr.lower (PyStr.lower s) = PyStr.lower s.
Proof.
  induction s as [|c s IH]; [done|]. cbn [PyStr.lower].
  by rewrite lower_char_idemp, IH.
Qed.

Lemma lower_lstrip (s : string) :
  PyStr.lower (PyStr.lstrip s) = PyStr.lstrip (PyStr.lower s).
Proof.
  induction s as [|c s IH]; [done|]. cbn [PyStr.lstrip PyStr.lower].
  rewrite isspace_lower_char. by destruct (PyStr.isspace c).
Qed.

Lemma lower_strip (s : string) :
  PyStr.lower (PyStr.strip s) = PyStr.strip (PyStr.lower s).
Proof.
  unfold PyStr.strip, PyStr.rstrip.
  by rewrite lower_rev, lower_lstrip, lower_rev, lower_lstrip.
Qed.

Lemma lower_empty (s : string) : PyStr.lower s = "" <-> s = "".
Proof. by destruct s. Qed.

Lemma split_go_lower (cur s : string) :
  PyStr.split_go (PyStr.lower cur) (PyStr.lower s)
  = PyStr.lower <$> PyStr.split_go cur s.
Proof.
  revert cur. induction s as [|c s IH]; intros cur.
  - cbn [PyStr.lower PyStr.split_go]. rewrite <- lower_rev.
    by destruct cur.
  - cbn [PyStr.lower PyStr.split_go]. rewrite isspace_lower_char.
    destruct (PyStr.isspace c).
    + rewrite <- lower_rev. destruct cur as [|c' cur]; cbn [PyStr.lower].
      * apply (IH "").
      * cbn [fmap list_fmap]. f_equal. apply (IH "").
    + apply (IH (String c cur)).
Qed.

Lemma split_lower (s : string) :
  PyStr.split (PyStr.lower s) = PyStr.lower <$> PyStr.split s.
Proof. apply (split_go_lower "" s). Qed.

Lemma split_lstrip (s : string) :
  PyStr.split (PyStr.lstrip s) = PyStr.split s.
Proof.
  unfold PyStr.split. induction s as [|c s IH]; [done|].
  cbn [PyStr.lstrip]. destruct (PyStr.isspace c) eqn:Hc; [|done].
  cbn [PyStr.split_go]. by rewrite Hc.
Qed.

Lemma split_go_app_space (cur s : string) (c : ascii) :
  PyStr.isspace c = true ->
  PyStr.split_go cur (s +:+ String c "") = PyStr.split_go cur s.
Proof.
  intros Hc. revert cur. induction s as [|c' s IH]; intros cur.
  - rewrite string_app_nil_l. cbn [PyStr.split_go]. rewrite Hc.
    by destruct cur.
  - rewrite string_app_cons. cbn [PyStr.split_go].
    destruct (PyStr.isspace c'); [|apply IH].
    destruct cur; by rewrite IH.
Qed.

Lemma split_rev_lstrip (r : string) :
  PyStr.split (String.rev (PyStr.lstrip r)) = PyStr.split (String.rev r).
Proof.
  induction r as [|c r IH]; [done|]. cbn [PyStr.lstrip].
  destruct (PyStr.isspace c) eqn:Hc; [|done].
  rewrite rev_cons. unfold PyStr.split. by rewrite split_go_app_space.
Qed.

Lemma split_strip (s : string) : PyStr.split (PyStr.strip s) = PyStr.split s.
Proof.
  unfold PyStr.strip, PyStr.rstrip.
  by rewrite split_rev_lstrip, rev_involutive, split_lstrip.
Qed.

(** The normal form is made of the words of the text in lower case, one
    space between them, with every ampersand spelled out. *)
Theorem normalize_words (v : cell) :
  normalize v
  = PyStr.replace (PyStr.join " " (PyStr.lower <$> PyStr.split (str v)))
      "&" "and".
Proof.
  unfold normalize. by rewrite lower_strip, split_strip, split_lower.
Qed.

(** Hence it does not see the case of the letters, nor how the words are
    spaced. *)
Corollary normalize_case_insensitive (s t : string) :
  PyStr.lower s = PyStr.lower t -> normalize (Str s) = normalize (Str t).
Proof.
  intros Hst. rewrite !normalize_words. cbn [str].
  by rewrite <- !split_lower, Hst.
Qed.

Corollary normalize_space_insensitive (s t : string) :
  PyStr.split s = PyStr.split t -> normalize (Str s) = normalize (Str t).
Proof. intros Hst. rewrite !normalize_words. cbn [str]. by rewrite Hst. Qed.

(** ** The table and the normaliser together *)

(** C1 (the code falls short of the claim): the aliases written with an
    ampersand are keys of the table, but the ampersand is rewritten to
    "and" before the lookup, so the keys "j&k", "j & k", "a&n islands" and
    "a & n islands" are never looked up.  "J&K" cleans to the sentinel,
    and "  J&K " and "j and k" normalise to different keys. *)
Theorem C1_ampersand_aliases_unreachable :
  STATE_NAME_MAP !! "j&k" = Some "jammu and kashmir"
  /\ clean_state_name (Str "J&K")
     = (INVALID_STATE, [Unrecognized (Str "J&K") "jandk"])
  /\ normalize (Str "  J&K ") = "jandk"
  /\ normalize (Str "j and k") = "j and k"
  /\ filter (fun kv : string * string =>
               (clean_state_name (Str kv.1)).1 <> kv.2)
       STATE_NAME_MAP_items
     = [ ("a & n islands", "andaman and nicobar islands");
         ("a&n islands", "andaman and nicobar islands");
         ("j&k", "jammu and kashmir");
         ("j & k", "jammu and kashmir") ].
Proof. repeat split; by vm_compute. Qed.

(** C4: every canonical name of the table is also a key that maps to
    itself, its normal form is itself, and cleaning it returns it unchanged
    without a warning. *)
Theorem C4_canonical_self_mapping (k c : string) :
  STATE_NAME_MAP !! k = Some c ->
  STATE_NAME_MAP !! c = Some c
  /\ normalize (Str c) = c
  /\ clean_state_name (Str c) = (c, []).
Proof.
  intros Hk%STATE_NAME_MAP_lookup.
  pose proof STATE_NAME_MAP_items_self as Hall.
  rewrite Forall_forall in Hall. exact (Hall _ Hk).
Qed.

Lemma C4_witness :
  STATE_NAME_MAP !! "tn" = Some "tamil nadu"
  /\ (STATE_NAME_MAP !! "tamil nadu" = Some "tamil nadu"
      /\ normalize (Str "tamil nadu") = "tamil nadu"
      /\ clean_state_name (Str "tamil nadu") = ("tamil nadu", [])).
Proof.
  split; [by vm_compute|].
  apply (C4_canonical_self_mapping "tn" "tamil nadu"). by vm_compute.
Defined.

(** ** Series and frames *)

Lemma apply_run (s : Series) (w : World) :
  apply clean_state_name s w
  = (inr (cleaned s), mkWorld (fs w) (stdout w ++ warnings s)).
Proof.
  revert w. induction s as [|v s IH]; intros [files out].
  - cbn. by rewrite app_nil_r.
  - cbn [apply]. unfold bind at 1. unfold printing, bind, print, ret.
    cbn [fs stdout]. rewrite IH. cbn. by rewrite <- app_assoc.
Qed.

Lemma length_cleaned (s : Series) : length (cleaned s) = length s.
Proof. apply length_map. Qed.

Lemma cleaned_lookup (s : Series) (i : nat) :
  cleaned s !! i = (fun v => Str (clean_state_name v).1) <$> s !! i.
Proof. apply list_lookup_fmap. Qed.

Lemma cleaned_cleaned (s : Series) : cleaned (cleaned s) = cleaned s.
Proof.
  unfold cleaned. rewrite map_map. apply map_ext. intros v.
  f_equal. apply clean_state_name_twice.
Qed.

Lemma elem_of_columns_setitem (df : DataFrame) (c c' : string)
    (s' : Series) :
  c' <> c -> c' ∈ (setitem df c s').*1 <-> c' ∈ df.*1.
Proof.
  intros Hne. induction df as [|[label s0] df IH]; cbn.
  - rewrite elem_of_cons, elem_of_nil. split; [by intros [?|?]|done].
  - destruct (decide (label = c)) as [->|Hlc]; cbn; [done|].
    rewrite !elem_of_cons, IH. done.
Qed.

Lemma getitem_setitem (df : DataFrame) (c : string) (s s' : Series) :
  getitem df c = inr s -> getitem (setitem df c s') c = inr s'.
Proof.
  induction df as [|[label s0] df IH]; cbn; [done|].
  destruct (decide (label = c)) as [->|Hne]; cbn.
  - rewrite decide_True by done.
    by destruct (bool_decide (c ∈ df.*1)).
  - rewrite decide_False by done. apply IH.
Qed.

Lemma getitem_setitem_ne (df : DataFrame) (c c' : string) (s' : Series) :
  c' <> c -> getitem (setitem df c s') c' = getitem df c'.
Proof.
  intros Hne. induction df as [|[label s0] df IH]; cbn.
  - destruct (decide (c = c')); congruence.
  - destruct (decide (label = c)) as [->|Hlc]; cbn.
    + destruct (decide (c = c')); congruence.
    + rewrite IH. destruct (decide (label = c')); [|done].
      by rewrite (bool_decide_ext _ _ (elem_of_columns_setitem df c c' s' Hne)).
Qed.

Lemma setitem_setitem (df : DataFrame) (c : string) (s s' : Series) :
  setitem (setitem df c s) c s' = setitem df c s'.
Proof.
  induction df as [|[label s0] df IH]; cbn.
  - by rewrite decide_True.
  - destruct (decide (label = c)) as [->|Hlc]; cbn.
    + by rewrite decide_True.
    + rewrite decide_False by done. by rewrite IH.
Qed.

Lemma columns_setitem (df : DataFrame) (c : string) (s s' : Series) :
  getitem df c = inr s -> columns (setitem df c s') = columns df.
Proof.
  unfold columns. induction df as [|[label s0] df IH]; cbn; [done|].
  destruct (decide (label = c)) as [->|Hlc]; cbn; [done|].
  intros Hg. by rewrite IH.
Qed.

Lemma len_setitem (df : DataFrame) (c : string) (s s' : Series) :
  getitem df c = inr s -> length s' = length s ->
  len (setitem df c s') = len df.
Proof.
  destruct df as [|[label s0] df]; cbn; [done|].
  destruct (decide (label = c)) as [->|Hlc]; cbn; [|done].
  destruct (bool_decide (c ∈ df.*1)); [done|]. by intros [= ->] ->.
Qed.

(** The selection fails for a label that is not there, or is there more
    than once, and for no other. *)
Lemma getitem_occurrences (df : DataFrame) (c : string) :
  match length (filter (fun label => label = c) (columns df)) with
  | 0%nat => getitem df c = inl (KeyError c)
  | 1%nat => exists s, getitem df c = inr s
  | _ => getitem df c = inl (ValueError c)
  end.
Proof.
  unfold columns. induction df as [|[label s0] df IH]; [done|].
  cbn [fmap list_fmap fst getitem]. rewrite filter_cons.
  destruct (decide (label = c)) as [->|Hne].
  - cbn [length].
    assert (c ∈ df.*1
            <-> length (filter (fun label => label = c) df.*1) <> 0%nat)
      as Hin.
    { clear. induction (df.*1) as [|x l IHl].
      - rewrite elem_of_nil. split; [done|]. by cbn.
      - rewrite filter_cons, elem_of_cons.
        destruct (decide (x = c)) as [->|Hx]; cbn [length].
        + split; [done|]. by left.
        + rewrite <- IHl. split; [by intros [?|?]|by right]. }
    destruct (length (filter (fun label => label = c) df.*1)) as [|n].
    + rewrite bool_decide_false by (rewrite Hin; lia). by exists s0.
    + rewrite bool_decide_true by (rewrite Hin; lia). done.
  - exact IH.
Qed.

Lemma getitem_raises (df : DataFrame) (c : string) (e : exn) :
  getitem df c = inl e ->
  (e = KeyError c /\ c ∉ columns df) \/ (e = ValueError c /\ c ∈ columns df).
Proof.
  unfold columns. induction df as [|[label s0] df IH]; cbn.
  - intros [= <-]. left. split; [done|]. by intros ?%elem_of_nil.
  - destruct (decide (label = c)) as [->|Hne].
    + destruct (bool_decide (c ∈ df.*1)); [|done].
      intros [= <-]. right. split; [done|]. by left.
    + intros [[-> Hc]|[-> Hc]]%IH.
      * left. split; [done|]. rewrite not_elem_of_cons. done.
      * right. split; [done|]. by right.
Qed.

Lemma getitem_elem_of (df : DataFrame) (c : string) (s : Series) :
  getitem df c = inr s -> c ∈ columns df.
Proof.
  unfold columns. induction df as [|[label s0] df IH]; cbn; [done|].
  destruct (decide (label = c)) as [->|Hne]; [by left|].
  intros Hg. right. by apply IH.
Qed.

Lemma clean_state_column_run (df : DataFrame) (c : string) (s : Series)
    (w : World) :
  getitem df c = inr s ->
  clean_state_column df c w
  = (inr (setitem df c (cleaned s)),
     mkWorld (fs w) (stdout w ++ column_report df s)).
Proof.
  intros Hg. unfold clean_state_column, column_report.
  unfold bind at 1. rewrite Hg. cbn [lift ret].
  unfold bind at 1. cbn [print].
  unfold bind at 1. rewrite apply_run. cbn [fs stdout].
  rewrite (getitem_setitem _ _ _ (cleaned s) Hg).
  unfold bind at 1. cbn [lift ret].
  destruct (decide (0 < mask_sum (series_eq (cleaned s) INVALID_STATE))%nat).
  - unfold bind, print, ret. cbn. by rewrite <- !app_assoc.
  - unfold bind, print, ret. cbn. by rewrite <- !app_assoc.
Qed.

Lemma clean_state_column_raise (df : DataFrame) (c : string) (e : exn)
    (w : World) :
  getitem df c = inl e -> clean_state_column df c w = (inl e, w).
Proof.
  intros Hg. unfold clean_state_column. unfold bind at 1. by rewrite Hg.
Qed.

Lemma clean_state_column_inv (df : DataFrame) (col : string) (w : World)
    (df' : DataFrame) (w' : World) :
  clean_state_column df col w = (inr df', w') ->
  exists s, getitem df col = inr s
            /\ df' = setitem df col (cleaned s)
            /\ w' = mkWorld (fs w) (stdout w ++ column_report df s).
Proof.
  intros Hrun. destruct (getitem df col) as [e|s] eqn:Hg.
  - by rewrite (clean_state_column_raise _ _ _ _ Hg) in Hrun.
  - rewrite (clean_state_column_run _ _ _ _ Hg) in Hrun.
    injection Hrun as <- <-. by exists s.
Qed.

(** The only failures are the missing and the repeated column, and they
    leave no trace. *)
Lemma clean_state_column_raises (df : DataFrame) (col : string)
    (w : World) (e : exn) (w' : World) :
  clean_state_column df col w = (inl e, w') ->
  getitem df col = inl e /\ w' = w.
Proof.
  intros Hrun. destruct (getitem df col) as [e0|s] eqn:Hg.
  - rewrite (clean_state_column_raise _ _ _ _ Hg) in Hrun.
    by injection Hrun as <- <-.
  - by rewrite (clean_state_column_run _ _ _ _ Hg) in Hrun.
Qed.

Lemma at_setitem (df : DataFrame) (col : string) (s : Series) (c : string)
    (i : nat) :
  getitem df col = inr s ->
  at_ (setitem df col (cleaned s)) c i
  = if decide (c = col)
    then (fun v => Str (clean_state_name v).1) <$> at_ df col i
    else at_ df c i.
Proof.
  intros Hg. unfold at_. destruct (decide (c = col)) as [->|Hne].
  - rewrite (getitem_setitem _ _ _ _ Hg), Hg. apply cleaned_lookup.
  - by rewrite getitem_setitem_ne.
Qed.

(** C6: a value whose normalised key is not in the table cleans to the
    sentinel, and the column goes on: with such a value anywhere in a
    series, [apply] returns, the cells before and after it cleaned as
    usual.  "Atlantis" is such a value. *)
Theorem C6_unrecognized_to_sentinel (v : cell) :
  STATE_NAME_MAP !! normalize v = None ->
  (clean_state_name v).1 = INVALID_STATE
  /\ (forall (before after : Series) (w : World),
        (apply clean_state_name (before ++ v :: after) w).1
        = inr (cleaned before ++ Str INVALID_STATE :: cleaned after))
  /\ (clean_state_name (Str "Atlantis")).1 = INVALID_STATE.
Proof.
  intros Hmiss.
  assert ((clean_state_name v).1 = INVALID_STATE) as Hv.
  { destruct (isna v) eqn:Hna.
    - by destruct v.
    - by rewrite clean_state_name_miss. }
  split; [done|]. split; [|by vm_compute].
  intros before after w. rewrite apply_run. cbn [fst].
  unfold cleaned. rewrite map_app. cbn [map]. by rewrite Hv.
Qed.

Lemma C6_witness :
  STATE_NAME_MAP !! normalize (Str "Atlantis") = None
  /\ ((clean_state_name (Str "Atlantis")).1 = INVALID_STATE
      /\ (forall (before after : Series) (w : World),
            (apply clean_state_name (before ++ Str "Atlantis" :: after) w).1
            = inr (cleaned before ++ Str INVALID_STATE :: cleaned after))
      /\ (clean_state_name (Str "Atlantis")).1 = INVALID_STATE).
Proof.
  split; [by vm_compute|].
  apply (C6_unrecognized_to_sentinel (Str "Atlantis")). by vm_compute.
Defined.



(** C10: whatever the input, the value returned is the sentinel or one of
    the 36 canonical names, the range of the table; the sentinel is not
    among them; so every cell of a cleaned column is the sentinel or a
    canonical name. *)
Theorem C10_closed_output_domain :
  size canonical_names = 36%nat
  /\ (INVALID_STATE ∉ canonical_names)
  /\ (forall v : cell,
        (clean_state_name v).1 = INVALID_STATE
        \/ (clean_state_name v).1 ∈ canonical_names)
  /\ (forall (s : Series) (w : World),
        exists s' w',
          apply clean_state_name s w = (inr s', w')
          /\ Forall (fun c => exists r, c = Str r
                       /\ (r = INVALID_STATE \/ r ∈ canonical_names)) s').
Proof.
  assert (forall v : cell,
            (clean_state_name v).1 = INVALID_STATE
            \/ (clean_state_name v).1 ∈ canonical_names) as Hdom.
  { intros v. destruct (clean_state_name_cases v) as [?|Hk]; [by left|].
    right. by apply canonical_names_lookup. }
  split; [by vm_compute|]. split; [apply INVALID_STATE_not_canonical|].
  split; [done|]. intros s w. eexists _, _. split; [apply apply_run|].
  unfold cleaned. apply Forall_forall. intros c Hc.
  apply list_elem_of_fmap in Hc as (v & -> & _). eauto.
Qed.

(** C5: cleaning the cleaned frame again returns the same frame, and
    cleaning a cleaned value again returns the same value, the sentinel
    included. *)
Theorem C5_cleaning_idempotent (df : DataFrame) (col : string) (w : World)
    (df' : DataFrame) (w' : World) :
  clean_state_column df col w = (inr df', w') ->
  (forall w1 : World, (clean_state_column df' col w1).1 = inr df')
  /\ (forall v : cell,
        (clean_state_name (Str (clean_state_name v).1)).1
        = (clean_state_name v).1)
  /\ (clean_state_name (Str INVALID_STATE)).1 = INVALID_STATE.
Proof.
  intros (s & Hg & -> & _)%clean_state_column_inv.
  split; [|split; [apply clean_state_name_twice|by vm_compute]].
  intros w1.
  rewrite (clean_state_column_run _ _ (cleaned s) w1)
    by (by eapply getitem_setitem).
  cbn [fst]. by rewrite setitem_setitem, cleaned_cleaned.
Qed.

Lemma C5_witness :
  clean_state_column example_df "state" w0
  = (inr [("state",
           [Str "uttar pradesh"; Str "tamil nadu"; Str "INVALID_STATE"])],
     mkWorld ∅ [Total_rows 3; Unrecognized (Str "Mars") "mars";
                Invalid_count 1; Invalid_sample (Str "INVALID_STATE")])
  /\ ((forall w1 : World,
         (clean_state_column
            [("state",
              [Str "uttar pradesh"; Str "tamil nadu"; Str "INVALID_STATE"])]
            "state" w1).1
         = inr [("state",
                 [Str "uttar pradesh"; Str "tamil nadu";
                  Str "INVALID_STATE"])])
      /\ (forall v : cell,
            (clean_state_name (Str (clean_state_name v).1)).1
            = (clean_state_name v).1)
      /\ (clean_state_name (Str INVALID_STATE)).1 = INVALID_STATE).
Proof.
  split; [by vm_compute|].
  eapply (C5_cleaning_idempotent example_df "state" w0). by vm_compute.
Defined.

Lemma clean_columns_notin (df : DataFrame) (col : string) :
  col ∉ columns df ->
  map (fun c : string * Series =>
         if decide (c.1 = col) then (c.1, cleaned c.2) else c) df = df.
Proof.
  unfold columns. induction df as [|[label s0] df IH]; cbn; [done|].
  intros [Hne Hnotin]%not_elem_of_cons.
  rewrite decide_False by congruence. by rewrite IH.
Qed.

Lemma setitem_as_map (df : DataFrame) (col : string) (s : Series) :
  NoDup (columns df) -> getitem df col = inr s ->
  setitem df col (cleaned s)
  = map (fun c : string * Series =>
           if decide (c.1 = col) then (c.1, cleaned c.2) else c) df.
Proof.
  unfold columns. induction df as [|[label s0] df IH]; cbn; [done|].
  intros [Hnotin Hnd]%NoDup_cons.
  destruct (decide (label = col)) as [->|Hne].
  - rewrite bool_decide_false by done.
    intros [= ->]. by rewrite (clean_columns_notin df col).
  - intros Hg. by rewrite IH.
Qed.

Lemma wf_setitem (df : DataFrame) (col : string) (s : Series) :
  getitem df col = inr s -> wf df -> wf (setitem df col (cleaned s)).
Proof.
  intros Hg [Hnd Hlen]. split.
  - by rewrite (columns_setitem _ _ _ _ Hg).
  - rewrite (len_setitem _ _ _ _ Hg) by apply length_cleaned.
    rewrite setitem_as_map by done. apply Forall_fmap.
    eapply Forall_impl; [exact Hlen|]. intros [label s0] Hc. cbn in *.
    destruct (decide (label = col)); cbn; [|done].
    by rewrite length_cleaned.
Qed.

Lemma records_setitem (df : DataFrame) (col : string) (s : Series) :
  getitem df col = inr s -> wf df ->
  records (setitem df col (cleaned s)) = map (clean_record col) (records df).
Proof.
  intros Hg [Hnd Hlen]. unfold records.
  rewrite (len_setitem _ _ _ _ Hg) by apply length_cleaned.
  rewrite map_map. apply map_ext_in. intros i Hi%in_seq.
  rewrite setitem_as_map by done. unfold clean_record. rewrite !map_map.
  apply map_ext_in. intros [label s0] Hc%list_elem_of_In. cbn.
  rewrite Forall_forall in Hlen. specialize (Hlen _ Hc). cbn in Hlen.
  destruct (decide (label = col)) as [->|Hne]; cbn; [|done].
  rewrite cleaned_lookup.
  destruct (s0 !! i) as [v|] eqn:Hv; [done|].
  apply lookup_ge_None in Hv. lia.
Qed.

(** C8: the cleaned frame has as many rows as the input and the same
    columns in the same order, and its row [i] is row [i] of the input with
    the state field cleaned: every other cell is where it was.  For a
    well-formed frame, the records of the result are the records of the
    input, in the same order, each with its state field cleaned. *)
Theorem C8_rows_preserved (df : DataFrame) (col : string) (w : World)
    (df' : DataFrame) (w' : World) :
  clean_state_column df col w = (inr df', w') ->
  len df' = len df
  /\ columns df' = columns df
  /\ (forall (c : string) (i : nat),
        at_ df' c i
        = if decide (c = col)
          then (fun v => Str (clean_state_name v).1) <$> at_ df col i
          else at_ df c i)
  /\ (wf df ->
      wf df'
      /\ length (records df') = length (records df)
      /\ records df' = map (clean_record col) (records df)).
Proof.
  intros (s & Hg & -> & _)%clean_state_column_inv.
  split; [apply (len_setitem _ _ _ _ Hg), length_cleaned|].
  split; [apply (columns_setitem _ _ _ _ Hg)|].
  split; [intros c i; by apply at_setitem|].
  intros Hwf. split; [by apply wf_setitem|].
  rewrite (records_setitem _ _ _ Hg Hwf). split; [|done].
  by rewrite length_map.
Qed.

Lemma C8_witness :
  clean_state_column example_df "state" w0
  = (inr example_cleaned,
     mkWorld ∅ [Total_rows 3; Unrecognized (Str "Mars") "mars";
                Invalid_count 1; Invalid_sample (Str "INVALID_STATE")])
  /\ wf example_df
  /\ len example_cleaned = len example_df
  /\ columns example_cleaned = columns example_df
  /\ (forall (c : string) (i : nat),
        at_ example_cleaned c i
        = if decide (c = "state")
          then (fun v => Str (clean_state_name v).1)
                 <$> at_ example_df "state" i
          else at_ example_df c i)
  /\ wf example_cleaned
  /\ length (records example_cleaned) = length (records example_df)
  /\ records example_cleaned
     = map (clean_record "state") (records example_df).
Proof.
  assert (wf example_df) as Hwf.
  { split; [apply (bool_decide_unpack _); by vm_compute|].
    by repeat constructor. }
  split; [by vm_compute|]. split; [exact Hwf|].
  destruct (C8_rows_preserved example_df "state" w0 example_cleaned
              (mkWorld ∅ [Total_rows 3; Unrecognized (Str "Mars") "mars";
                          Invalid_count 1;
                          Invalid_sample (Str "INVALID_STATE")]))
    as (Hlen & Hcols & Hat & Hrec); [by vm_compute|].
  destruct (Hrec Hwf) as (Hwf' & Hn & Hrecords).
  exact (conj Hlen (conj Hcols (conj Hat (conj Hwf' (conj Hn Hrecords))))).
Defined.

Example wf_example_df : wf example_df.
Proof.
  split; [apply (bool_decide_unpack _); by vm_compute|].
  by repeat constructor.
Qed.

Example records_example_df :
  records example_df
  = [ [("state", Str "U.P.")]; [("state", Str "TN")];
      [("state", Str "Mars")] ].
Proof. reflexivity. Qed.

(** C2, as the code has it: cleaning the frame with the rows "U.P.", "TN"
    and "Mars" in column "state" gives the rows "uttar pradesh",
    "tamil nadu" and the sentinel, which the code spells INVALID_STATE; one
    row of the result holds the sentinel, and that count is printed. *)
Theorem C2_end_to_end (files : gmap string string) :
  records example_df
  = [ [("state", Str "U.P.")]; [("state", Str "TN")];
      [("state", Str "Mars")] ]
  /\ exists df' w',
       clean_state_column example_df "state" (mkWorld files []) = (inr df', w')
       /\ records df'
          = [ [("state", Str "uttar pradesh")]; [("state", Str "tamil nadu")];
              [("state", Str "INVALID_STATE")] ]
       /\ fs w' = files
       /\ Invalid_count 1 ∈ stdout w'
       /\ (exists s, getitem df' "state" = inr s
                     /\ mask_sum (series_eq s INVALID_STATE) = 1%nat).
Proof.
  split; [reflexivity|]. eexists _, _. split; [|split; [|split; [|split]]].
  - by rewrite (clean_state_column_run example_df "state"
                  [Str "U.P."; Str "TN"; Str "Mars"]).
  - by vm_compute.
  - done.
  - cbn [stdout]. apply (bool_decide_unpack _). by vm_compute.
  - eexists. split; by vm_compute.
Qed.

(** C2 as stated does not hold: the third output row is not "UNRESOLVED",
    and the sample printed is the sentinel read back from the column that
    was just overwritten, not the raw value "Mars". *)
Lemma C2_counterexample :
  let run := clean_state_column example_df "state" w0 in
  (exists df', run.1 = inr df'
     /\ records df'
        = [ [("state", Str "uttar pradesh")]; [("state", Str "tamil nadu")];
            [("state", Str "INVALID_STATE")] ]
     /\ records df'
        <> [ [("state", Str "uttar pradesh")]; [("state", Str "tamil nadu")];
             [("state", Str "UNRESOLVED")] ])
  /\ invalid_samples (stdout run.2) = [Str "INVALID_STATE"]
  /\ invalid_samples (stdout run.2) <> [Str "Mars"].
Proof.
  split; [|split; by vm_compute].
  exists example_cleaned. repeat split; by vm_compute.
Qed.

(** ** The backup path *)

Lemma string_app_length (s t : string) :
  String.length (s +:+ t) = (String.length s + String.length t)%nat.
Proof.
  induction s as [|c s IH]; [done|].
  rewrite string_app_cons. cbn [String.length]. by rewrite IH.
Qed.

Lemma replace_go_absent (old new s : string) :
  occurs old s = false -> PyStr.replace_go old new 0 s = s.
Proof.
  induction s as [|c s IH]; [done|]. cbn [occurs PyStr.replace_go].
  intros [Hhere Hrest]%orb_false_elim. rewrite Hhere. by rewrite IH.
Qed.

Lemma length_replace_go_ge (old new : string) (skip : nat) (s : string) :
  (1 <= String.length old <= String.length new)%nat ->
  (String.length s
   <= String.length (PyStr.replace_go old new skip s)
      + Nat.min skip (String.length s))%nat.
Proof.
  intros Hlen. revert skip. induction s as [|c s IH]; intros skip.
  - cbn. lia.
  - cbn [PyStr.replace_go String.length]. destruct skip as [|k].
    + destruct (PyStr.startswith (String c s) old).
      * rewrite string_app_length.
        specialize (IH (Nat.pred (String.length old))). lia.
      * cbn [String.length]. specialize (IH 0%nat). lia.
    + specialize (IH k). lia.
Qed.

Lemma length_replace_go_gt (old new s : string) :
  (String.length old < String.length new)%nat ->
  old <> "" -> occurs old s = true ->
  (String.length s < String.length (PyStr.replace_go old new 0 s))%nat.
Proof.
  intros Hlen Hold. induction s as [|c s IH].
  - cbn [occurs]. by destruct old.
  - cbn [occurs PyStr.replace_go String.length].
    destruct (PyStr.startswith (String c s) old) eqn:Hhere.
    + intros _. rewrite string_app_length.
      assert (1 <= String.length old)%nat
        by (destruct old; [done|cbn [String.length]; lia]).
      pose proof (length_replace_go_ge old new
                    (Nat.pred (String.length old)) s). lia.
    + cbn [orb String.length]. intros Hrest. specialize (IH Hrest). lia.
Qed.

(** The backup path is the input path exactly when ".csv" does not occur
    in it. *)
Lemma backup_path_same_iff (input_file : string) :
  PyStr.replace input_file ".csv" "_BACKUP.csv" = input_file
  <-> occurs ".csv" input_file = false.
Proof.
  split.
  - intros Heq. destruct (occurs ".csv" input_file) eqn:Hocc; [|done].
    pose proof (length_replace_go_gt ".csv" "_BACKUP.csv" input_file)
      as Hgt.
    unfold PyStr.replace in Heq. rewrite Heq in Hgt.
    cbn [String.length] in Hgt. specialize (Hgt ltac:(lia) ltac:(done) Hocc).
    lia.
  - apply replace_go_absent.
Qed.

(** ** Files and the batch *)

Section ScriptProperties.

Context `{Csv}.

Lemma read_csv_run (path : string) (w : World) :
  read_csv path w = (load (fs w) path, w).
Proof. unfold read_csv. by destruct (load (fs w) path). Qed.

Lemma process_csv_file_raise_load (input_file : string)
    (output_file : option string) (col : string) (w : World) (e : exn) :
  load (fs w) input_file = inl e ->
  process_csv_file input_file output_file col w = (inl e, w).
Proof.
  intros Hl. unfold process_csv_file. unfold bind at 1.
  by rewrite read_csv_run, Hl.
Qed.

Lemma process_csv_file_raise_column (input_file : string)
    (output_file : option string) (col : string) (w : World)
    (df0 : DataFrame) (e : exn) :
  load (fs w) input_file = inr df0 -> getitem df0 col = inl e ->
  process_csv_file input_file output_file col w = (inl e, w).
Proof.
  intros Hl Hg. unfold process_csv_file. unfold bind at 1.
  rewrite read_csv_run, Hl. unfold bind at 1.
  by rewrite (clean_state_column_raise _ _ _ _ Hg).
Qed.

Lemma process_csv_file_run_Some (input_file out : string) (col : string)
    (w : World) (df0 : DataFrame) (s : Series) :
  load (fs w) input_file = inr df0 -> getitem df0 col = inr s ->
  csv_can_write out = true ->
  process_csv_file input_file (Some out) col w
  = (inr (setitem df0 col (cleaned s)),
     mkWorld (<[out := csv_format (setitem df0 col (cleaned s))]> (fs w))
       (stdout w ++ column_report df0 s
        ++ [Saving_to out; Saved_rows (len (setitem df0 col (cleaned s)))])).
Proof.
  intros Hl Hg Hout. unfold process_csv_file. unfold bind at 1.
  rewrite read_csv_run, Hl. unfold bind at 1.
  rewrite (clean_state_column_run _ _ _ _ Hg).
  unfold bind, ret, print, to_csv. cbn [fs stdout]. rewrite Hout.
  cbn [fs stdout]. by rewrite <- !app_assoc.
Qed.

(** The write of the output fails: nothing is written. *)
Lemma process_csv_file_raise_Some (input_file out : string) (col : string)
    (w : World) (df0 : DataFrame) (s : Series) :
  load (fs w) input_file = inr df0 -> getitem df0 col = inr s ->
  csv_can_write out = false ->
  process_csv_file input_file (Some out) col w
  = (inl (OSError out),
     mkWorld (fs w) (stdout w ++ column_report df0 s ++ [Saving_to out])).
Proof.
  intros Hl Hg Hout. unfold process_csv_file. unfold bind at 1.
  rewrite read_csv_run, Hl. unfold bind at 1.
  rewrite (clean_state_column_run _ _ _ _ Hg).
  unfold bind, ret, print, to_csv. cbn [fs stdout]. rewrite Hout.
  by rewrite <- !app_assoc.
Qed.

Lemma process_csv_file_run_None (input_file : string) (col : string)
    (w : World) (df0 : DataFrame) (s : Series) :
  load (fs w) input_file = inr df0 -> getitem df0 col = inr s ->
  csv_can_write (PyStr.replace input_file ".csv" "_BACKUP.csv") = true ->
  csv_can_write input_file = true ->
  let backup_file := PyStr.replace input_file ".csv" "_BACKUP.csv" in
  process_csv_file input_file None col w
  = (inr (setitem df0 col (cleaned s)),
     mkWorld
       (<[input_file := csv_format (setitem df0 col (cleaned s))]>
          (<[backup_file := csv_format df0]> (fs w)))
       (stdout w ++ column_report df0 s
        ++ [Creating_backup backup_file; Saving_to input_file;
            Saved_rows (len (setitem df0 col (cleaned s)))])).
Proof.
  intros Hl Hg Hbak Hin backup_file. unfold process_csv_file.
  unfold bind at 1. rewrite read_csv_run, Hl. unfold bind at 1.
  rewrite (clean_state_column_run _ _ _ _ Hg).
  unfold bind at 1. unfold bind at 1. cbn [print fs stdout].
  unfold bind at 1. rewrite read_csv_run. cbn [fs]. rewrite Hl.
  unfold bind, ret, print, to_csv. cbn [fs stdout]. rewrite Hbak.
  cbn [fs stdout]. rewrite Hin. cbn [fs stdout].
  by rewrite <- !app_assoc.
Qed.

(** The write of the backup fails: nothing is written. *)
Lemma process_csv_file_raise_backup (input_file : string) (col : string)
    (w : World) (df0 : DataFrame) (s : Series) :
  load (fs w) input_file = inr df0 -> getitem df0 col = inr s ->
  csv_can_write (PyStr.replace input_file ".csv" "_BACKUP.csv") = false ->
  let backup_file := PyStr.replace input_file ".csv" "_BACKUP.csv" in
  process_csv_file input_file None col w
  = (inl (OSError backup_file),
     mkWorld (fs w)
       (stdout w ++ column_report df0 s ++ [Creating_backup backup_file])).
Proof.
  intros Hl Hg Hbak backup_file. unfold process_csv_file.
  unfold bind at 1. rewrite read_csv_run, Hl. unfold bind at 1.
  rewrite (clean_state_column_run _ _ _ _ Hg).
  unfold bind at 1. unfold bind at 1. cbn [print fs stdout].
  unfold bind at 1. rewrite read_csv_run. cbn [fs]. rewrite Hl.
  unfold bind, ret, print, to_csv. cbn [fs stdout]. rewrite Hbak.
  by rewrite <- !app_assoc.
Qed.

(** The backup is written and the write of the cleaned frame fails. *)
Lemma process_csv_file_raise_overwrite (input_file : string) (col : string)
    (w : World) (df0 : DataFrame) (s : Series) :
  load (fs w) input_file = inr df0 -> getitem df0 col = inr s ->
  csv_can_write (PyStr.replace input_file ".csv" "_BACKUP.csv") = true ->
  csv_can_write input_file = false ->
  let backup_file := PyStr.replace input_file ".csv" "_BACKUP.csv" in
  process_csv_file input_file None col w
  = (inl (OSError input_file),
     mkWorld (<[backup_file := csv_format df0]> (fs w))
       (stdout w ++ column_report df0 s
        ++ [Creating_backup backup_file; Saving_to input_file])).
Proof.
  intros Hl Hg Hbak Hin backup_file. unfold process_csv_file.
  unfold bind at 1. rewrite read_csv_run, Hl. unfold bind at 1.
  rewrite (clean_state_column_run _ _ _ _ Hg).
  unfold bind at 1. unfold bind at 1. cbn [print fs stdout].
  unfold bind at 1. rewrite read_csv_run. cbn [fs]. rewrite Hl.
  unfold bind, ret, print, to_csv. cbn [fs stdout]. rewrite Hbak.
  cbn [fs stdout]. rewrite Hin.
  by rewrite <- !app_assoc.
Qed.

(** A run that returns: the frame it read, the paths it could write and
    the world it leaves. *)
Lemma process_csv_file_returns (input_file : string)
    (output_file : option string) (col : string) (w : World)
    (df : DataFrame) (w' : World) :
  process_csv_file input_file output_file col w = (inr df, w') ->
  exists df0 s,
    load (fs w) input_file = inr df0
    /\ getitem df0 col = inr s
    /\ df = setitem df0 col (cleaned s)
    /\ match output_file with
       | Some out =>
           csv_can_write out = true
           /\ w' = mkWorld (<[out := csv_format df]> (fs w))
                     (stdout w ++ column_report df0 s
                      ++ [Saving_to out; Saved_rows (len df)])
       | None =>
           csv_can_write (PyStr.replace input_file ".csv" "_BACKUP.csv")
           = true
           /\ csv_can_write input_file = true
           /\ w' = mkWorld
                     (<[input_file := csv_format df]>
                        (<[PyStr.replace input_file ".csv" "_BACKUP.csv"
                             := csv_format df0]> (fs w)))
                     (stdout w ++ column_report df0 s
                      ++ [Creating_backup
                            (PyStr.replace input_file ".csv" "_BACKUP.csv");
                          Saving_to input_file; Saved_rows (len df)])
       end.
Proof.
  intros Hrun. destruct (load (fs w) input_file) as [e|df0] eqn:Hl.
  { by rewrite (process_csv_file_raise_load _ _ _ _ _ Hl) in Hrun. }
  destruct (getitem df0 col) as [e|s] eqn:Hg.
  { by rewrite (process_csv_file_raise_column _ _ _ _ _ _ Hl Hg) in Hrun. }
  exists df0, s. split; [done|]. split; [done|].
  destruct output_file as [out|].
  - destruct (csv_can_write out) eqn:Hout.
    + rewrite (process_csv_file_run_Some _ _ _ _ _ _ Hl Hg Hout) in Hrun.
      by injection Hrun as <- <-.
    + by rewrite (process_csv_file_raise_Some _ _ _ _ _ _ Hl Hg Hout)
        in Hrun.
  - destruct (csv_can_write (PyStr.replace input_file ".csv" "_BACKUP.csv"))
      eqn:Hbak.
    2:{ by rewrite (process_csv_file_raise_backup _ _ _ _ _ Hl Hg Hbak)
          in Hrun. }
    destruct (csv_can_write input_file) eqn:Hin.
    + rewrite (process_csv_file_run_None _ _ _ _ _ Hl Hg Hbak Hin) in Hrun.
      by injection Hrun as <- <-.
    + by rewrite (process_csv_file_raise_overwrite _ _ _ _ _ Hl Hg Hbak Hin)
        in Hrun.
Qed.

Lemma load_Some (files : gmap string string) (path : string)
    (df0 : DataFrame) :
  load files path = inr df0 ->
  exists text, files !! path = Some text /\ csv_parse text = inr df0.
Proof.
  unfold load. destruct (files !! path) as [text|]; [|done].
  intros Hp. by exists text.
Qed.

(** X15: the frame written is the frame read with its state column
    cleaned: it has as many rows and the same columns, and it lands in the
    output file, which is the input file when no output path is given. *)
Lemma process_csv_file_rows (input_file : string)
    (output_file : option string) (col : string) (w : World)
    (df : DataFrame) (w' : World) :
  process_csv_file input_file output_file col w = (inr df, w') ->
  exists text df0,
    fs w !! input_file = Some text
    /\ csv_parse text = inr df0
    /\ len df = len df0
    /\ columns df = columns df0
    /\ fs w' !! default input_file output_file = Some (csv_format df).
Proof.
  intros (df0 & s & Hl & Hg & -> & Hw)%process_csv_file_returns.
  destruct (load_Some _ _ _ Hl) as (text & Ht & Hp).
  exists text, df0. split; [done|]. split; [done|].
  split; [apply (len_setitem _ _ _ _ Hg), length_cleaned|].
  split; [apply (columns_setitem _ _ _ _ Hg)|].
  destruct output_file as [out|]; cbn [default from_option].
  - destruct Hw as (_ & ->). cbn [fs]. by rewrite lookup_insert_eq.
  - destruct Hw as (_ & _ & ->). cbn [fs]. by rewrite lookup_insert_eq.
Qed.

(** What a run with an output path returns or raises depends on the input
    file alone. *)
Lemma process_csv_file_result_ext (input_file out : string) (col : string)
    (w1 w2 : World) :
  fs w1 !! input_file = fs w2 !! input_file ->
  (process_csv_file input_file (Some out) col w1).1
  = (process_csv_file input_file (Some out) col w2).1.
Proof.
  intros Hfs.
  assert (load (fs w1) input_file = load (fs w2) input_file) as Hload.
  { unfold load. by rewrite Hfs. }
  destruct (load (fs w2) input_file) as [e|df0] eqn:Hl.
  { by rewrite !(process_csv_file_raise_load _ _ _ _ e). }
  destruct (getitem df0 col) as [e|s] eqn:Hg.
  { by rewrite !(process_csv_file_raise_column _ _ _ _ df0 e). }
  destruct (csv_can_write out) eqn:Hout.
  - by rewrite !(process_csv_file_run_Some _ _ _ _ df0 s).
  - by rewrite !(process_csv_file_raise_Some _ _ _ _ df0 s).
Qed.

(** One turn of the batch loop never raises; it writes the output file
    or prints the report of the failure. *)
Lemma process_guarded_run (input_file output_file : string) (w : World) :
  exists w' out,
    process_guarded input_file output_file w = (inr tt, w')
    /\ stdout w' = stdout w ++ out
    /\ match (process_csv_file input_file (Some output_file) "state" w).1
       with
       | inr df =>
           fs w' = <[output_file := csv_format df]> (fs w)
       | inl e =>
           fs w' = fs w /\ exists pre, out = pre ++ [report input_file e]
       end.
Proof.
  unfold process_guarded, try_except, bind at 1.
  destruct (load (fs w) input_file) as [e|df0] eqn:Hl.
  { rewrite (process_csv_file_raise_load _ _ _ _ _ Hl). cbn [fst].
    destruct e; eexists _, _; (split; [reflexivity|]);
      (split; [done|]); (split; [done|]); by exists []. }
  destruct (getitem df0 "state") as [e|s] eqn:Hg.
  { rewrite (process_csv_file_raise_column _ _ _ _ _ _ Hl Hg). cbn [fst].
    destruct e; eexists _, _; (split; [reflexivity|]);
      (split; [done|]); (split; [done|]); by exists []. }
  destruct (csv_can_write output_file) eqn:Hout.
  - rewrite (process_csv_file_run_Some _ _ _ _ _ _ Hl Hg Hout).
    cbn [fst ret]. eexists _, _. split; [reflexivity|]. by cbn.
  - rewrite (process_csv_file_raise_Some _ _ _ _ _ _ Hl Hg Hout).
    cbn [fst]. eexists _, _. split; [reflexivity|]. cbn [fs stdout report].
    split; [by rewrite <- app_assoc|]. split; [done|]. by eexists.
Qed.

Lemma process_all_spec (files : list (string * string)) (w : World) :
  NoDup files.*2 ->
  (forall p, p ∈ files.*1 -> p ∉ files.*2) ->
  exists w' out,
    process_all files w = (inr tt, w')
    /\ stdout w' = stdout w ++ out
    /\ (forall p, p ∉ files.*2 -> fs w' !! p = fs w !! p)
    /\ Forall
         (fun io : string * string =>
            match (process_csv_file io.1 (Some io.2) "state" w).1 with
            | inr df => fs w' !! io.2 = Some (csv_format df)
            | inl e => report io.1 e ∈ out /\ fs w' !! io.2 = fs w !! io.2
            end) files.
Proof.
  revert w. induction files as [|[i o] files IH]; intros w Hnd Hio.
  { exists w, []. cbn. by rewrite app_nil_r. }
  cbn [fmap list_fmap fst snd] in Hnd, Hio.
  apply NoDup_cons in Hnd as [Ho Hnd].
  destruct (process_guarded_run i o w) as (w1 & out0 & Hrun1 & Hout0 & Hfs1).
  destruct (IH w1 Hnd) as (w' & out1 & Hrun & Hout1 & Hkeep & Hall).
  { intros p Hp Hp'. apply (Hio p); by right. }
  exists w', (out0 ++ out1).
  assert (forall p, p <> o -> fs w1 !! p = fs w !! p) as Hfs1'.
  { intros p Hp.
    destruct ((process_csv_file i (Some o) "state" w).1) as [e|df].
    - by destruct Hfs1 as [-> _].
    - rewrite Hfs1. by rewrite lookup_insert_ne. }
  split; [|split; [|split]].
  - cbn [process_all]. unfold bind at 1. by rewrite Hrun1.
  - by rewrite Hout1, Hout0, app_assoc.
  - intros p Hp. cbn [fmap list_fmap snd] in Hp.
    apply not_elem_of_cons in Hp as [Hpo Hp].
    rewrite Hkeep by done. by apply Hfs1'.
  - apply Forall_cons. split.
    + cbn [fst snd].
      destruct ((process_csv_file i (Some o) "state" w).1) as [e|df].
      * destruct Hfs1 as [Hfs1 [pre ->]]. split.
        { apply elem_of_app. left. apply elem_of_app. right. by left. }
        rewrite Hkeep by done. by rewrite Hfs1.
      * rewrite Hkeep by done. by rewrite Hfs1, lookup_insert_eq.
    + apply Forall_forall. intros [i' o'] Hin.
      rewrite Forall_forall in Hall. specialize (Hall _ Hin).
      cbn [fst snd] in *.
      assert (i' <> o) as Hi'.
      { intros ->. apply (Hio o).
        - right. by apply (list_elem_of_fmap_2 fst _ (o, o')).
        - by left. }
      assert (o' <> o) as Ho'.
      { intros ->. apply Ho. by apply (list_elem_of_fmap_2 snd _ (i', o)). }
      rewrite (process_csv_file_result_ext i' o' "state" w w1)
        by (symmetry; by apply Hfs1').
      destruct ((process_csv_file i' (Some o') "state" w1).1) as [e|df];
        [|done].
      destruct Hall as [Hrep Hsame]. split.
      * apply elem_of_app. by right.
      * rewrite Hsame. by apply Hfs1'.
Qed.

(** C9: run without arguments, the script never raises and reaches its
    closing lines.  Each of the three datasets fares as it would alone on
    the files found at the start: if its run returns, its output file
    holds the cleaned frame; if its run raises, the failure is printed,
    its output file is left as it was, and the datasets after it are still
    processed. *)
Theorem C9_batch_isolation (prog : string) (w : World) :
  exists w' out,
    main [prog] w = (inr tt, w')
    /\ stdout w'
       = stdout w ++ out
         ++ All_processing_complete :: (Cleaned_file <$> files_to_process.*2)
    /\ Forall
         (fun io : string * string =>
            match (process_csv_file io.1 (Some io.2) "state" w).1 with
            | inr df => fs w' !! io.2 = Some (csv_format df)
            | inl e => report io.1 e ∈ out /\ fs w' !! io.2 = fs w !! io.2
            end) files_to_process.
Proof.
  unfold main. cbn [length]. rewrite decide_False by lia.
  destruct (process_all_spec files_to_process w)
    as (w1 & out & Hrun & Hout & _ & Hall).
  - apply (bool_decide_unpack _). by vm_compute.
  - intros p Hp Hp'. revert Hp Hp'. cbn.
    rewrite !elem_of_cons, !elem_of_nil. intros Hp Hp'.
    destruct Hp as [->|[->|[->|[]]]]; destruct Hp' as [?|[?|[?|[]]]];
      discriminate.
  - unfold bind at 1. rewrite Hrun. unfold bind, print, ret. cbn [fs stdout].
    eexists _, out. split; [reflexivity|]. cbn [fs stdout]. split; [|done].
    rewrite Hout. by rewrite <- !app_assoc.
Qed.

(** X14: the backup is made from the parsed frame: two input files that
    parse to the same frame get the same backup, so the backup cannot be a
    copy of both. *)
Lemma backup_depends_on_frame (input_file col : string) (w1 w2 : World)
    (df1 df2 : DataFrame) (w1' w2' : World) :
  load (fs w1) input_file = load (fs w2) input_file ->
  process_csv_file input_file None col w1 = (inr df1, w1') ->
  process_csv_file input_file None col w2 = (inr df2, w2') ->
  PyStr.replace input_file ".csv" "_BACKUP.csv" <> input_file ->
  fs w1' !! PyStr.replace input_file ".csv" "_BACKUP.csv"
  = fs w2' !! PyStr.replace input_file ".csv" "_BACKUP.csv".
Proof.
  intros Hload
    (df0 & s & Hl1 & Hg & -> & _ & _ & ->)%process_csv_file_returns
    (df0' & s' & Hl2 & Hg' & -> & _ & _ & ->)%process_csv_file_returns Hne.
  rewrite Hload, Hl2 in Hl1. injection Hl1 as <-. cbn [fs].
  rewrite !(lookup_insert_ne _ input_file) by done.
  by rewrite !lookup_insert_eq.
Qed.


End ScriptProperties.

(** ** Runs on concrete files *)



(** When the input path has no ".csv" in it, the backup path is the input
    path: the backup is written over the input and then overwritten by
    the cleaned frame, and no backup is left. *)
Example backup_path_collision :
  let run :=
    @process_csv_file PlainCsv.codec "data/states.tsv" None "state"
      tsv_world in
  run.1 = inr example_cleaned
  /\ Creating_backup "data/states.tsv" ∈ stdout run.2
  /\ fs run.2 = {[ "data/states.tsv" := PlainCsv.format example_cleaned ]}.
Proof.
  split; [by vm_compute|]. split; [|by vm_compute].
  apply (bool_decide_unpack _). by vm_compute.
Qed.

(** The batch with the enrollment and biometric files missing: both are
    reported and the demographic file is cleaned in between. *)
Example batch_with_missing_files :
  @main PlainCsv.codec ["clean_state_names.py"] batch_world
  = (inr tt,
     mkWorld
       (<["data/demographic_cleaned_states.csv"
            := PlainCsv.format example_cleaned]> (fs batch_world))
       [File_not_found "data/enrollment.csv";
        Total_rows 3; Unrecognized (Str "Mars") "mars"; Invalid_count 1;
        Invalid_sample (Str "INVALID_STATE");
        Saving_to "data/demographic_cleaned_states.csv"; Saved_rows 3;
        File_not_found "data/biometric.csv";
        All_processing_complete;
        Cleaned_file "data/enrollment_cleaned_states.csv";
        Cleaned_file "data/demographic_cleaned_states.csv";
        Cleaned_file "data/biometric_cleaned_states.csv"]).
Proof. by vm_compute. Qed.

(** A single file given on the command line is not guarded: a missing
    input raises out of the script. *)
Example single_file_not_guarded :
  @main PlainCsv.codec ["clean_state_names.py"; "data/enrollment.csv"]
    batch_world
  = (inl (FileNotFoundError "data/enrollment.csv"), batch_world).
Proof. by vm_compute. Qed.

(** A frame without the state column raises [KeyError] and writes
    nothing. *)
Example missing_column_raises :
  @process_csv_file PlainCsv.codec "data/states.csv" None "State"
    example_world
  = (inl (KeyError "State"), example_world).
Proof. by vm_compute. Qed.

(** An output file that cannot be written raises [OSError] after the
    column report, and no file is touched. *)
Example locked_output_raises :
  @process_csv_file (PlainCsv.codec_locked ["out/clean.csv"])
    "data/states.csv" (Some "out/clean.csv") "state" example_world
  = (inl (OSError "out/clean.csv"),
     mkWorld (fs example_world)
       [Total_rows 3; Unrecognized (Str "Mars") "mars"; Invalid_count 1;
        Invalid_sample (Str "INVALID_STATE"); Saving_to "out/clean.csv"]).
Proof. by vm_compute. Qed.

(** In the batch such a failure is reported and the next dataset is
    processed. *)
Example batch_with_locked_output :
  (@main (PlainCsv.codec_locked ["data/demographic_cleaned_states.csv"])
     ["clean_state_names.py"] batch_world).1 = inr tt
  /\ fs (@main (PlainCsv.codec_locked ["data/demographic_cleaned_states.csv"])
           ["clean_state_names.py"] batch_world).2 = fs batch_world
  /\ Error_processing "data/demographic.csv"
       (OSError "data/demographic_cleaned_states.csv")
     ∈ stdout (@main
                 (PlainCsv.codec_locked
                    ["data/demographic_cleaned_states.csv"])
                 ["clean_state_names.py"] batch_world).2.
Proof.
  split; [by vm_compute|]. split; [by vm_compute|].
  apply (bool_decide_unpack _). by vm_compute.
Qed.

(** The codec reads back what it writes for the example frame. *)
Example plain_csv_example :
  PlainCsv.format example_df = example_text
  /\ PlainCsv.parse example_text = inr example_df
  /\ PlainCsv.parse unterminated_text = inr example_df.
Proof. repeat split; by vm_compute. Qed.

(** * Further properties *)

(** ** The normal form *)

Lemma replace_spell_out (s : string) :
  PyStr.replace s "&" "and" = spell_out s.
Proof.
  unfold PyStr.replace. induction s as [|c s IH]; [done|].
  cbn [PyStr.replace_go PyStr.startswith spell_out String.length Nat.pred].
  rewrite IH. destruct (Ascii.eqb "&" c); [|done]. by destruct s.
Qed.

Lemma spell_out_app (s t : string) :
  spell_out (s +:+ t) = spell_out s +:+ spell_out t.
Proof.
  induction s as [|c s IH]; [done|].
  rewrite string_app_cons. cbn [spell_out].
  destruct (Ascii.eqb "&" c).
  - by rewrite IH, string_app_assoc.
  - by rewrite IH, string_app_cons.
Qed.

Lemma spell_out_join (ws : list string) :
  spell_out (PyStr.join " " ws) = PyStr.join " " (spell_out <$> ws).
Proof.
  induction ws as [|w [|w' ws] IH]; [done..|].
  change (PyStr.join " " (w :: w' :: ws))
    with (w +:+ " " +:+ PyStr.join " " (w' :: ws)).
  rewrite !spell_out_app, IH. done.
Qed.

Lemma occurs_amp_spell_out (s : string) : occurs "&" (spell_out s) = false.
Proof.
  induction s as [|c s IH]; [done|]. cbn [spell_out].
  destruct (Ascii.eqb "&" c) eqn:Hc.
  - cbn. exact IH.
  - cbn [occurs PyStr.startswith]. by rewrite Hc, IH.
Qed.

Lemma spell_out_no_amp (s : string) : occurs "&" s = false -> spell_out s = s.
Proof.
  induction s as [|c s IH]; [done|]. cbn [occurs PyStr.startswith spell_out].
  destruct (Ascii.eqb "&" c); [by destruct s|]. cbn. intros Hs. by rewrite IH.
Qed.

Lemma spell_out_idemp (s : string) : spell_out (spell_out s) = spell_out s.
Proof. apply spell_out_no_amp, occurs_amp_spell_out. Qed.

Lemma eqb_amp_lower_char (c : ascii) :
  Ascii.eqb "&" (PyStr.lower_char c) = Ascii.eqb "&" c.
Proof. by destruct c as [[] [] [] [] [] [] [] []]. Qed.

Lemma lower_spell_out (s : string) :
  PyStr.lower (spell_out s) = spell_out (PyStr.lower s).
Proof.
  induction s as [|c s IH]; [done|]. cbn [spell_out PyStr.lower].
  rewrite eqb_amp_lower_char. destruct (Ascii.eqb "&" c).
  - by rewrite lower_app, IH.
  - cbn [PyStr.lower]. by rewrite IH.
Qed.

Lemma spaceless_app (s t : string) :
  spaceless (s +:+ t) = spaceless s && spaceless t.
Proof.
  induction s as [|c s IH]; [done|].
  rewrite string_app_cons. cbn [spaceless]. rewrite IH.
  by destruct (PyStr.isspace c).
Qed.

Lemma spaceless_rev (s : string) : spaceless (String.rev s) = spaceless s.
Proof.
  induction s as [|c s IH]; [done|].
  rewrite rev_cons, spaceless_app, IH. cbn [spaceless].
  destruct (PyStr.isspace c), (spaceless s); done.
Qed.

Lemma spaceless_lower (s : string) : spaceless (PyStr.lower s) = spaceless s.
Proof.
  induction s as [|c s IH]; [done|]. cbn [PyStr.lower spaceless].
  by rewrite isspace_lower_char, IH.
Qed.

Lemma spaceless_spell_out (s : string) :
  spaceless (spell_out s) = spaceless s.
Proof.
  induction s as [|c s IH]; [done|]. cbn [spell_out spaceless].
  destruct (Ascii.eqb "&" c) eqn:Hc.
  - apply Ascii.eqb_eq in Hc as <-. rewrite spaceless_app, IH. done.
  - cbn [spaceless]. by rewrite IH.
Qed.

Lemma rev_empty (s : string) : String.rev s = "" -> s = "".
Proof. intros Hs. by rewrite <- (rev_involutive s), Hs. Qed.

Lemma is_word_lower (w : string) : is_word w -> is_word (PyStr.lower w).
Proof.
  intros [Hne Hsp]. split; [by rewrite lower_empty|].
  by rewrite spaceless_lower.
Qed.

Lemma is_word_spell_out (w : string) : is_word w -> is_word (spell_out w).
Proof.
  intros [Hne Hsp]. split; [|by rewrite spaceless_spell_out].
  destruct w as [|c w]; [done|]. cbn [spell_out].
  by destruct (Ascii.eqb "&" c).
Qed.

(** [split] returns words. *)
Lemma split_go_words (cur s : string) :
  spaceless cur = true -> Forall is_word (PyStr.split_go cur s).
Proof.
  revert cur. induction s as [|c s IH]; intros cur Hcur.
  - cbn [PyStr.split_go]. destruct cur as [|c' cur]; [done|].
    apply Forall_singleton. split; [|by rewrite spaceless_rev].
    intros Hrev%rev_empty. done.
  - cbn [PyStr.split_go]. destruct (PyStr.isspace c) eqn:Hc.
    + destruct cur as [|c' cur]; [by apply IH|].
      apply Forall_cons. split; [|by apply IH].
      split; [|by rewrite spaceless_rev]. intros Hrev%rev_empty. done.
    + apply IH. cbn [spaceless]. by rewrite Hc.
Qed.

Lemma split_words (s : string) : Forall is_word (PyStr.split s).
Proof. by apply split_go_words. Qed.

Lemma split_go_spaceless (w cur rest : string) :
  spaceless w = true ->
  PyStr.split_go cur (w +:+ rest)
  = PyStr.split_go (String.rev w +:+ cur) rest.
Proof.
  revert cur. induction w as [|c w IH]; intros cur Hw; [done|].
  cbn [spaceless] in Hw. apply andb_prop in Hw as [Hc Hw].
  rewrite string_app_cons. cbn [PyStr.split_go].
  destruct (PyStr.isspace c); [done|].
  rewrite IH by done. by rewrite rev_cons, string_app_assoc.
Qed.

(** Splitting the words joined by one space gives the words back. *)
Lemma split_join (ws : list string) :
  Forall is_word ws -> PyStr.split (PyStr.join " " ws) = ws.
Proof.
  unfold PyStr.split.
  induction ws as [|w [|w' ws] IH]; intros Hws; [done| |].
  - apply Forall_singleton in Hws as [Hne Hsp]. cbn [PyStr.join].
    rewrite <- (string_app_nil_r w) at 1.
    rewrite split_go_spaceless by done. rewrite string_app_nil_r.
    cbn [PyStr.split_go].
    destruct (String.rev w) eqn:Hrev; [by apply rev_empty in Hrev|].
    by rewrite <- Hrev, rev_involutive.
  - apply Forall_cons in Hws as [[Hne Hsp] Hws].
    change (PyStr.join " " (w :: w' :: ws))
      with (w +:+ " " +:+ PyStr.join " " (w' :: ws)).
    rewrite split_go_spaceless by done. rewrite string_app_nil_r.
    rewrite string_app_cons, string_app_nil_l. cbn [PyStr.split_go].
    change (PyStr.isspace " ") with true. cbn match.
    destruct (String.rev w) eqn:Hrev; [by apply rev_empty in Hrev|].
    rewrite <- Hrev, rev_involutive. f_equal. by apply IH.
Qed.

Lemma normalize_spell_out (v : cell) :
  normalize v
  = PyStr.join " " (spell_out <$> (PyStr.lower <$> PyStr.split (str v))).
Proof.
  by rewrite normalize_words, replace_spell_out, spell_out_join.
Qed.

Lemma normalize_idemp (v : cell) : normalize (Str (normalize v)) = normalize v.
Proof.
  rewrite (normalize_spell_out (Str _)). cbn [str].
  rewrite (normalize_spell_out v).
  set (ws := PyStr.lower <$> PyStr.split (str v)).
  assert (Forall is_word ws) as Hws.
  { apply Forall_fmap. eapply Forall_impl; [apply split_words|].
    intros w. apply is_word_lower. }
  rewrite split_join.
  2:{ apply Forall_fmap. eapply Forall_impl; [exact Hws|].
      intros w. apply is_word_spell_out. }
  f_equal. rewrite <- !list_fmap_compose. apply list_fmap_ext.
  intros i w Hw. cbn. rewrite lower_spell_out, spell_out_idemp. f_equal.
  subst ws. apply list_lookup_fmap_Some in Hw as (w0 & -> & _).
  apply lower_lower.
Qed.

Lemma isna_false_value (v : cell) (k c : string) :
  isna v = false -> STATE_NAME_MAP !! normalize v = Some c ->
  (clean_state_name v).1 = c.
Proof. intros Hna Hk. unfold clean_state_name. by rewrite Hna, Hk. Qed.

(** X1: the value returned for a text depends only on its words in lower
    case: texts that differ in the case of their letters, or in the
    whitespace before, after and between their words, clean to the same
    name. *)
Theorem X1_case_and_spacing_ignored (s t : string) :
  PyStr.lower <$> PyStr.split s = PyStr.lower <$> PyStr.split t ->
  normalize (Str s) = normalize (Str t)
  /\ (clean_state_name (Str s)).1 = (clean_state_name (Str t)).1.
Proof.
  intros Hst.
  assert (normalize (Str s) = normalize (Str t)) as Hn.
  { rewrite !normalize_words. cbn [str]. by rewrite Hst. }
  split; [done|]. unfold clean_state_name. cbn [isna]. rewrite Hn.
  by destruct (STATE_NAME_MAP !! normalize (Str t)).
Qed.

Lemma X1_witness :
  PyStr.lower <$> PyStr.split "  TAMIL   Nadu "
  = PyStr.lower <$> PyStr.split "tamil nadu"
  /\ (normalize (Str "  TAMIL   Nadu ") = normalize (Str "tamil nadu")
      /\ (clean_state_name (Str "  TAMIL   Nadu ")).1
         = (clean_state_name (Str "tamil nadu")).1).
Proof.
  split; [by vm_compute|].
  apply (X1_case_and_spacing_ignored "  TAMIL   Nadu " "tamil nadu").
  by vm_compute.
Defined.

(** X2: normalising is idempotent: the normal form of a value is its own
    normal form, so a text can be looked up under a key only if the key is
    its own normal form. *)
Theorem X2_normalize_idempotent (v : cell) (k : string) :
  normalize (Str (normalize v)) = normalize v
  /\ ((exists u : cell, normalize u = k) <-> normalize (Str k) = k).
Proof.
  split; [apply normalize_idemp|]. split.
  - intros [u <-]. apply normalize_idemp.
  - intros Hk. by exists (Str k).
Qed.

(** X3: the key looked up never holds an ampersand, whatever the value.
    The nine entries of the table whose key holds one are never hit. *)
Theorem X3_ampersand_keys_dead (v : cell) :
  occurs "&" (normalize v) = false
  /\ Forall (fun kv : string * string =>
               occurs "&" kv.1 = true -> normalize v <> kv.1)
       STATE_NAME_MAP_items
  /\ length (filter (fun kv : string * string => occurs "&" kv.1 = true)
               STATE_NAME_MAP_items) = 9%nat.
Proof.
  assert (occurs "&" (normalize v) = false) as Hv.
  { rewrite normalize_words, replace_spell_out. apply occurs_amp_spell_out. }
  split; [done|]. split; [|by vm_compute].
  apply Forall_forall. intros kv _ Hamp Heq. congruence.
Qed.

(** ** What a column run prints *)

Lemma clean_state_name_sentinel_iff (v : cell) :
  (clean_state_name v).1 = INVALID_STATE <-> unresolved v = true.
Proof.
  unfold unresolved, unrecognized, clean_state_name.
  destruct (isna v); [done|]. cbn [negb orb andb].
  destruct (STATE_NAME_MAP !! normalize v) as [name|] eqn:Hk; cbn [fst].
  - rewrite bool_decide_eq_true. split; [|done]. intros ->.
    destruct INVALID_STATE_not_canonical.
    apply canonical_names_lookup. eauto.
  - rewrite bool_decide_eq_true. done.
Qed.

Lemma clean_state_name_output (v : cell) :
  (clean_state_name v).2
  = if unrecognized v then [Unrecognized v (normalize v)] else [].
Proof.
  unfold unrecognized, clean_state_name.
  destruct (isna v); [done|]. cbn [negb andb].
  destruct (STATE_NAME_MAP !! normalize v) as [name|] eqn:Hk; cbn [snd].
  - by rewrite bool_decide_false.
  - by rewrite bool_decide_true.
Qed.

Lemma warnings_unrecognized (s : list cell) :
  warnings s
  = (fun v => Unrecognized v (normalize v))
      <$> filter (fun v => unrecognized v = true) s.
Proof.
  unfold warnings. induction s as [|v s IH]; [done|].
  cbn [flat_map]. rewrite IH, filter_cons, clean_state_name_output.
  destruct (unrecognized v).
  - by rewrite decide_True.
  - by rewrite decide_False.
Qed.

Lemma mask_sum_cleaned (s : list cell) :
  mask_sum (series_eq (cleaned s) INVALID_STATE)
  = length (filter (fun v => unresolved v = true) s).
Proof.
  unfold mask_sum, series_eq, cleaned.
  induction s as [|v s IH]; [done|]. cbn [map]. rewrite !filter_cons.
  destruct (decide (unresolved v = true)) as [Hv|Hv].
  - rewrite bool_decide_true.
    2:{ f_equal. by apply clean_state_name_sentinel_iff. }
    rewrite decide_True by done. cbn [length]. by rewrite IH.
  - rewrite bool_decide_false.
    2:{ intros [= Heq]. by apply Hv, clean_state_name_sentinel_iff. }
    by rewrite decide_False.
Qed.

Lemma select_cleaned (s : list cell) :
  select (cleaned s) (series_eq (cleaned s) INVALID_STATE)
  = replicate (length (filter (fun v => unresolved v = true) s))
      (Str INVALID_STATE).
Proof.
  unfold series_eq, cleaned.
  induction s as [|v s IH]; [done|]. cbn [map select]. rewrite filter_cons.
  destruct (decide (unresolved v = true)) as [Hv|Hv].
  - apply clean_state_name_sentinel_iff in Hv. rewrite Hv.
    rewrite bool_decide_true by done. cbn [length replicate]. by rewrite IH.
  - rewrite bool_decide_false; [done|].
    intros [= Heq]. by apply Hv, clean_state_name_sentinel_iff.
Qed.

Lemma column_report_summary (df : DataFrame) (s : list cell) :
  column_report df s
  = Total_rows (len df)
    :: ((fun v => Unrecognized v (normalize v))
          <$> filter (fun v => unrecognized v = true) s)
    ++ summary (length (filter (fun v => unresolved v = true) s)).
Proof.
  unfold column_report. rewrite warnings_unrecognized, mask_sum_cleaned.
  rewrite select_cleaned. cbn [app]. do 2 f_equal.
  destruct (length (filter (fun v => unresolved v = true) s)) as [|n] eqn:Hn.
  - by rewrite decide_False by lia.
  - rewrite decide_True by lia. cbn [summary]. f_equal.
    unfold head. by rewrite take_replicate, fmap_replicate.
Qed.

(** X4: what cleaning column [c] of a frame does depends on how often
    the frame has the label.  Not at all: [KeyError] for that label.  More
    than once: [ValueError], as the selection is then a frame and not a
    column.  Both are raised before the row total, a warning or the
    summary is printed.  Once: the run returns the frame with that column
    cleaned, and has printed the report of the column; the files are as
    they were. *)
Theorem X4_column_lookup (df : DataFrame) (c : string) (w : World) :
  match length (filter (fun label => label = c) (columns df)) with
  | 0%nat => clean_state_column df c w = (inl (KeyError c), w)
  | 1%nat =>
      exists s,
        getitem df c = inr s
        /\ clean_state_column df c w
           = (inr (setitem df c (cleaned s)),
              mkWorld (fs w) (stdout w ++ column_report df s))
  | _ => clean_state_column df c w = (inl (ValueError c), w)
  end.
Proof.
  pose proof (getitem_occurrences df c) as Hocc.
  destruct (length (filter (fun label => label = c) (columns df)))
    as [|[|n]].
  - by apply clean_state_column_raise.
  - destruct Hocc as [s Hg]. exists s. split; [done|].
    by apply clean_state_column_run.
  - by apply clean_state_column_raise.
Qed.

(** The three cases on frames with the label zero, one and two times. *)
Example column_lookup_cases :
  clean_state_column example_df "State" w0 = (inl (KeyError "State"), w0)
  /\ clean_state_column example_df "state" w0
     = (inr example_cleaned,
        mkWorld ∅ [Total_rows 3; Unrecognized (Str "Mars") "mars";
                   Invalid_count 1; Invalid_sample (Str "INVALID_STATE")])
  /\ clean_state_column (example_df ++ example_df) "state" w0
     = (inl (ValueError "state"), w0).
Proof. split; [|split]; by vm_compute. Qed.

(** X5: a column run prints one warning for every cell that is there and
    is not recognised, in row order and with the raw value; a missing cell
    gets no warning.  Nothing else it prints is a warning. *)
Theorem X5_warnings_list_raw_values (df : DataFrame) (col : string)
    (w : World) (df' : DataFrame) (w' : World) :
  clean_state_column df col w = (inr df', w') ->
  exists s out,
    getitem df col = inr s
    /\ stdout w' = stdout w ++ out
    /\ filter (fun e => is_warning e = true) out
       = (fun v => Unrecognized v (normalize v))
           <$> filter (fun v => isna v = false
                                /\ STATE_NAME_MAP !! normalize v = None) s.
Proof.
  intros (s & Hg & -> & ->)%clean_state_column_inv. unfold Series in *.
  exists s, (column_report df s). split; [done|]. split; [done|].
  rewrite column_report_summary, filter_cons, decide_False by done.
  rewrite filter_app.
  assert (filter (fun e => is_warning e = true)
            (summary (length (filter (fun v => unresolved v = true) s))) = [])
    as ->.
  { destruct (length _) as [|n]; [done|]. cbn [summary].
    rewrite filter_cons, decide_False by done.
    induction (Nat.min 10 (S n)) as [|m IH]; [done|].
    cbn [replicate]. by rewrite filter_cons, decide_False. }
  rewrite app_nil_r.
  assert (forall l : list cell,
            filter (fun e => is_warning e = true)
              ((fun v => Unrecognized v (normalize v)) <$> l)
            = (fun v => Unrecognized v (normalize v)) <$> l) as ->.
  { intros l. induction l as [|v l IH]; [done|].
    cbn [fmap list_fmap]. rewrite filter_cons, decide_True by done.
    f_equal. exact IH. }
  f_equal. apply list_filter_iff. intros v. unfold unrecognized.
  rewrite andb_true_iff, negb_true_iff, bool_decide_eq_true. done.
Qed.

Lemma X5_witness :
  clean_state_column example_df "state" w0
  = (inr example_cleaned,
     mkWorld ∅ [Total_rows 3; Unrecognized (Str "Mars") "mars";
                Invalid_count 1; Invalid_sample (Str "INVALID_STATE")])
  /\ exists s out,
       getitem example_df "state" = inr s
       /\ [Total_rows 3; Unrecognized (Str "Mars") "mars";
           Invalid_count 1; Invalid_sample (Str "INVALID_STATE")]
          = stdout w0 ++ out
       /\ filter (fun e => is_warning e = true) out
          = (fun v => Unrecognized v (normalize v))
              <$> filter (fun v => isna v = false
                                   /\ STATE_NAME_MAP !! normalize v = None) s.
Proof.
  split; [by vm_compute|].
  apply (X5_warnings_list_raw_values example_df "state" w0 example_cleaned
           (mkWorld ∅ [Total_rows 3; Unrecognized (Str "Mars") "mars";
                       Invalid_count 1;
                       Invalid_sample (Str "INVALID_STATE")])).
  by vm_compute.
Defined.

(** X6: a column run ends with the summary of the rows that hold the
    sentinel in the result, which are the rows whose cell was missing or
    not recognised: "all standardized" when there is none, otherwise their
    number followed by one sample line for each of the first ten, every
    one of which shows the sentinel and not the raw value. *)
Theorem X6_summary_counts_unresolved (df : DataFrame) (col : string)
    (w : World) (df' : DataFrame) (w' : World) :
  clean_state_column df col w = (inr df', w') ->
  exists s s' pre,
    getitem df col = inr s
    /\ getitem df' col = inr s'
    /\ mask_sum (series_eq s' INVALID_STATE)
       = length (filter (fun v => unresolved v = true) s)
    /\ length (filter (fun v => unresolved v = true) s)
       = (length (filter (fun v => isna v = true) s)
          + length (filter (fun v => unrecognized v = true) s))%nat
    /\ stdout w'
       = stdout w ++ pre
         ++ summary (length (filter (fun v => unresolved v = true) s)).
Proof.
  intros (s & Hg & -> & ->)%clean_state_column_inv. unfold Series in *.
  exists s, (cleaned s), (Total_rows (len df) :: warnings s).
  split; [done|]. split; [by eapply getitem_setitem|].
  split; [apply mask_sum_cleaned|]. split.
  - clear. induction s as [|v s IH]; [done|]. rewrite !filter_cons.
    assert (isna v = true -> unrecognized v = false) as Hexcl.
    { unfold unrecognized. by intros ->. }
    pose proof (eq_refl : unresolved v = isna v || unrecognized v) as Hdef.
    destruct (decide (unresolved v = true)) as [H1|H1],
             (decide (isna v = true)) as [H2|H2],
             (decide (unrecognized v = true)) as [H3|H3];
      cbn [length]; rewrite ?IH; try lia; exfalso;
      rewrite Hdef in H1;
      destruct (isna v), (unrecognized v); cbn in *;
      try congruence; specialize (Hexcl eq_refl); congruence.
  - cbn [stdout]. by rewrite column_report_summary, warnings_unrecognized.
Qed.

Lemma X6_witness :
  clean_state_column example_df "state" w0
  = (inr example_cleaned,
     mkWorld ∅ [Total_rows 3; Unrecognized (Str "Mars") "mars";
                Invalid_count 1; Invalid_sample (Str "INVALID_STATE")])
  /\ exists s s' pre,
       getitem example_df "state" = inr s
       /\ getitem example_cleaned "state" = inr s'
       /\ mask_sum (series_eq s' INVALID_STATE)
          = length (filter (fun v => unresolved v = true) s)
       /\ length (filter (fun v => unresolved v = true) s)
          = (length (filter (fun v => isna v = true) s)
             + length (filter (fun v => unrecognized v = true) s))%nat
       /\ [Total_rows 3; Unrecognized (Str "Mars") "mars";
           Invalid_count 1; Invalid_sample (Str "INVALID_STATE")]
          = stdout w0 ++ pre
            ++ summary (length (filter (fun v => unresolved v = true) s)).
Proof.
  split; [by vm_compute|].
  apply (X6_summary_counts_unresolved example_df "state" w0 example_cleaned
           (mkWorld ∅ [Total_rows 3; Unrecognized (Str "Mars") "mars";
                       Invalid_count 1;
                       Invalid_sample (Str "INVALID_STATE")])).
  by vm_compute.
Defined.

Lemma size_canonical_names : size canonical_names = 36%nat.
Proof. by vm_compute. Qed.

Lemma nunique_cleaned (s : list cell) : (nunique (cleaned s) <= 37)%nat.
Proof.
  unfold nunique.
  set (K := Str <$> (INVALID_STATE :: elements canonical_names)).
  assert (length K = 37%nat) as <-.
  { unfold K. rewrite length_fmap. cbn [length].
    change (length (elements canonical_names)) with (size canonical_names).
    by rewrite size_canonical_names. }
  apply submseteq_length, NoDup_submseteq; [apply NoDup_remove_dups|].
  intros x Hx. rewrite elem_of_remove_dups in Hx.
  apply list_elem_of_filter in Hx as [_ Hx].
  unfold cleaned in Hx. apply list_elem_of_fmap in Hx as (v & -> & _).
  unfold K. apply list_elem_of_fmap_2.
  destruct (clean_state_name_cases v) as [->|Hk]; [by left|].
  right. by apply elem_of_elements, canonical_names_lookup.
Qed.

(** X7: after a column run the column holds at most 37 distinct values,
    the 36 canonical names and the sentinel, and no cell of it is missing:
    the table of the cleaned distribution has at most 37 lines and leaves
    no row out. *)
Theorem X7_cleaned_distribution_bounded (df : DataFrame) (col : string)
    (w : World) (df' : DataFrame) (w' : World) :
  clean_state_column df col w = (inr df', w') ->
  exists s s',
    getitem df col = inr s
    /\ getitem df' col = inr s'
    /\ (nunique s' <= 37)%nat
    /\ filter (fun v => isna v = false) s' = s'
    /\ length s' = length s.
Proof.
  intros (s & Hg & -> & _)%clean_state_column_inv. unfold Series in *.
  exists s, (cleaned s). split; [done|].
  split; [by eapply getitem_setitem|]. split; [apply nunique_cleaned|].
  split; [|apply length_cleaned].
  unfold cleaned. clear. induction s as [|v s IH]; [done|].
  cbn [map]. rewrite filter_cons, decide_True by done. by rewrite IH.
Qed.

Lemma X7_witness :
  clean_state_column example_df "state" w0
  = (inr example_cleaned,
     mkWorld ∅ [Total_rows 3; Unrecognized (Str "Mars") "mars";
                Invalid_count 1; Invalid_sample (Str "INVALID_STATE")])
  /\ exists s s',
       getitem example_df "state" = inr s
       /\ getitem example_cleaned "state" = inr s'
       /\ (nunique s' <= 37)%nat
       /\ filter (fun v => isna v = false) s' = s'
       /\ length s' = length s.
Proof.
  split; [by vm_compute|].
  apply (X7_cleaned_distribution_bounded example_df "state" w0
           example_cleaned
           (mkWorld ∅ [Total_rows 3; Unrecognized (Str "Mars") "mars";
                       Invalid_count 1;
                       Invalid_sample (Str "INVALID_STATE")])).
  by vm_compute.
Defined.

(** ** One file *)

Section FileProperties.

Context `{Csv}.

(** X8: a run that raises before it writes leaves every file as it
    was: [FileNotFoundError] when the input file is not there, what the
    CSV reader raises when the file does not parse, [KeyError] when the
    frame has no state column and [ValueError] when it has it more than
    once.  Any other failure is the [OSError] of a path that could not be
    written: with an output path, or when the backup could not be
    written, no file is changed; when the backup was written and the
    input file then could not be, the backup is the one file changed. *)
Theorem X8_failed_run_classified (input_file : string)
    (output_file : option string) (col : string) (w : World) (e : exn)
    (w' : World) :
  process_csv_file input_file output_file col w = (inl e, w') ->
  match fs w !! input_file with
  | None => e = FileNotFoundError input_file /\ fs w' = fs w
  | Some text =>
      match csv_parse text with
      | inl e0 => e = e0 /\ fs w' = fs w
      | inr df0 =>
          match getitem df0 col with
          | inl e1 =>
              e = e1 /\ fs w' = fs w
              /\ ((e = KeyError col /\ col ∉ columns df0)
                  \/ (e = ValueError col /\ col ∈ columns df0))
          | inr _ =>
              exists path,
                e = OSError path
                /\ csv_can_write path = false
                /\ match output_file with
                   | Some out => path = out /\ fs w' = fs w
                   | None =>
                       (path = PyStr.replace input_file ".csv" "_BACKUP.csv"
                        /\ fs w' = fs w)
                       \/ (path = input_file
                           /\ csv_can_write
                                (PyStr.replace input_file ".csv"
                                   "_BACKUP.csv") = true
                           /\ fs w'
                              = <[PyStr.replace input_file ".csv"
                                    "_BACKUP.csv" := csv_format df0]> (fs w))
                   end
          end
      end
  end.
Proof.
  intros Hrun. destruct (load (fs w) input_file) as [e0|df0] eqn:Hl.
  { rewrite (process_csv_file_raise_load _ _ _ _ _ Hl) in Hrun.
    injection Hrun as <- <-. unfold load in Hl.
    destruct (fs w !! input_file) as [text|]; [|by injection Hl as <-].
    by rewrite Hl. }
  destruct (load_Some _ _ _ Hl) as (text & -> & ->).
  destruct (getitem df0 col) as [e0|s] eqn:Hg.
  { rewrite (process_csv_file_raise_column _ _ _ _ _ _ Hl Hg) in Hrun.
    injection Hrun as <- <-. split; [done|]. split; [done|].
    by apply getitem_raises. }
  destruct output_file as [out|].
  - destruct (csv_can_write out) eqn:Hout.
    { by rewrite (process_csv_file_run_Some _ _ _ _ _ _ Hl Hg Hout)
        in Hrun. }
    rewrite (process_csv_file_raise_Some _ _ _ _ _ _ Hl Hg Hout) in Hrun.
    injection Hrun as <- <-. by exists out.
  - destruct (csv_can_write (PyStr.replace input_file ".csv" "_BACKUP.csv"))
      eqn:Hbak.
    2:{ rewrite (process_csv_file_raise_backup _ _ _ _ _ Hl Hg Hbak)
          in Hrun.
        injection Hrun as <- <-. eexists. split; [done|]. split; [done|].
        by left. }
    destruct (csv_can_write input_file) eqn:Hin.
    { by rewrite (process_csv_file_run_None _ _ _ _ _ Hl Hg Hbak Hin)
        in Hrun. }
    rewrite (process_csv_file_raise_overwrite _ _ _ _ _ Hl Hg Hbak Hin)
      in Hrun.
    injection Hrun as <- <-. exists input_file. split; [done|].
    split; [done|]. by right.
Qed.

(** X9: a run that returns writes the output file, which is the input
    file when no output path is given, and in that case the backup file,
    and no other: every other path holds what it held. *)
Theorem X9_run_writes_output_only (input_file : string)
    (output_file : option string) (col : string) (w : World)
    (df : DataFrame) (w' : World) (p : string) :
  process_csv_file input_file output_file col w = (inr df, w') ->
  fs w' !! default input_file output_file = Some (csv_format df)
  /\ (p = default input_file output_file
      \/ (output_file = None
          /\ p = PyStr.replace input_file ".csv" "_BACKUP.csv")
      \/ fs w' !! p = fs w !! p).
Proof.
  intros (df0 & s & Hl & Hg & Hdf & Hw)%process_csv_file_returns.
  destruct output_file as [out|]; cbn [default from_option].
  - destruct Hw as (_ & ->). cbn [fs].
    split; [by rewrite lookup_insert_eq|].
    destruct (decide (p = out)) as [->|Hp]; [by left|].
    right. right. by rewrite lookup_insert_ne.
  - destruct Hw as (_ & _ & ->). cbn [fs].
    split; [by rewrite lookup_insert_eq|].
    destruct (decide (p = input_file)) as [->|Hp]; [by left|].
    destruct (decide (p = PyStr.replace input_file ".csv" "_BACKUP.csv"))
      as [->|Hb]; [by right; left|].
    right. right. by rewrite !lookup_insert_ne.
Qed.

(** X10: cleaning is idempotent on files too: when the CSV reader reads
    the cleaned frame back from what the writer wrote, cleaning the output
    file into a path that can be written returns the same frame and writes
    the same text. *)
Theorem X10_cleaning_output_again (input_file out out2 col : string)
    (w : World) (df : DataFrame) (w1 : World) :
  process_csv_file input_file (Some out) col w = (inr df, w1) ->
  csv_parse (csv_format df) = inr df ->
  csv_can_write out2 = true ->
  exists w2,
    process_csv_file out (Some out2) col w1 = (inr df, w2)
    /\ fs w2 !! out2 = Some (csv_format df)
    /\ fs w2 !! out2 = fs w1 !! out.
Proof.
  intros (df0 & s & Hl & Hg & -> & _ & ->)%process_csv_file_returns
    Hround Hout2.
  set (df := setitem df0 col (cleaned s)) in *.
  set (w1 := mkWorld (<[out := csv_format df]> (fs w)) _).
  assert (load (fs w1) out = inr df) as Hl1.
  { unfold load, w1. cbn [fs]. by rewrite lookup_insert_eq. }
  assert (getitem df col = inr (cleaned s)) as Hg1
    by by eapply getitem_setitem.
  assert (setitem df col (cleaned (cleaned s)) = df) as Hdf.
  { unfold df. by rewrite setitem_setitem, cleaned_cleaned. }
  rewrite (process_csv_file_run_Some _ _ _ _ _ _ Hl1 Hg1 Hout2), !Hdf.
  eexists. split; [reflexivity|]. cbn [fs].
  rewrite lookup_insert_eq. split; [done|].
  unfold w1. cbn [fs]. by rewrite lookup_insert_eq.
Qed.

(** X11: a second run in place loses the original: when the CSV reader
    reads the cleaned frame back, running again without an output path
    returns the same frame and leaves the cleaned data in the input file
    and in the backup file. *)
Theorem X11_second_run_overwrites_backup (input_file col : string)
    (w : World) (df : DataFrame) (w1 : World) :
  process_csv_file input_file None col w = (inr df, w1) ->
  csv_parse (csv_format df) = inr df ->
  exists w2,
    process_csv_file input_file None col w1 = (inr df, w2)
    /\ fs w2 !! input_file = Some (csv_format df)
    /\ fs w2 !! PyStr.replace input_file ".csv" "_BACKUP.csv"
       = Some (csv_format df).
Proof.
  intros (df0 & s & Hl & Hg & -> & Hbak & Hin & ->)%process_csv_file_returns
    Hround.
  set (df := setitem df0 col (cleaned s)) in *.
  set (backup := PyStr.replace input_file ".csv" "_BACKUP.csv") in *.
  set (w1 := mkWorld _ _).
  assert (load (fs w1) input_file = inr df) as Hl1.
  { unfold load, w1. cbn [fs]. by rewrite lookup_insert_eq. }
  assert (getitem df col = inr (cleaned s)) as Hg1
    by by eapply getitem_setitem.
  assert (setitem df col (cleaned (cleaned s)) = df) as Hdf.
  { unfold df. by rewrite setitem_setitem, cleaned_cleaned. }
  rewrite (process_csv_file_run_None _ _ _ _ _ Hl1 Hg1 Hbak Hin), !Hdf.
  eexists. split; [reflexivity|]. cbn [fs].
  split; [by rewrite lookup_insert_eq|].
  destruct (decide (backup = input_file)) as [->|Hne].
  - by rewrite lookup_insert_eq.
  - rewrite lookup_insert_ne by done. by rewrite lookup_insert_eq.
Qed.

(** X12: after a run in place, the backup file holds the rendering of the
    frame parsed from the original input if ".csv" occurs in the input
    path; if it does not, the backup path is the input path and nothing
    but the cleaned input file is left. *)
Theorem X12_backup_kept_iff_csv_in_path (input_file col : string)
    (w : World) (df : DataFrame) (w' : World) :
  process_csv_file input_file None col w = (inr df, w') ->
  if occurs ".csv" input_file
  then PyStr.replace input_file ".csv" "_BACKUP.csv" <> input_file
       /\ exists text df_original,
            fs w !! input_file = Some text
            /\ csv_parse text = inr df_original
            /\ fs w' !! PyStr.replace input_file ".csv" "_BACKUP.csv"
               = Some (csv_format df_original)
  else PyStr.replace input_file ".csv" "_BACKUP.csv" = input_file
       /\ fs w' = <[input_file := csv_format df]> (fs w).
Proof.
  intros (df0 & s & Hl & Hg & -> & _ & _ & ->)%process_csv_file_returns.
  cbn [fs].
  pose proof (backup_path_same_iff input_file) as Hsame.
  destruct (occurs ".csv" input_file) eqn:Hocc.
  - assert (PyStr.replace input_file ".csv" "_BACKUP.csv" <> input_file)
      as Hne.
    { intros Heq%Hsame. congruence. }
    split; [done|]. destruct (load_Some _ _ _ Hl) as (text & Ht & Hp).
    exists text, df0. split; [done|]. split; [done|].
    rewrite lookup_insert_ne by done. by rewrite lookup_insert_eq.
  - assert (PyStr.replace input_file ".csv" "_BACKUP.csv" = input_file)
      as Heq by by apply Hsame.
    split; [done|]. rewrite Heq. by rewrite insert_insert_eq.
Qed.

(** X13: run without arguments, the script writes to the three output
    paths and to no other: the input files are left as they are and no
    backup is made. *)
Theorem X13_batch_writes_outputs_only (prog : string) (w : World)
    (p : string) :
  p ∉ files_to_process.*2 ->
  fs (main [prog] w).2 !! p = fs w !! p.
Proof.
  intros Hp. unfold main. cbn [length]. rewrite decide_False by lia.
  destruct (process_all_spec files_to_process w)
    as (w1 & out & Hrun & _ & Hkeep & _).
  - apply (bool_decide_unpack _). by vm_compute.
  - intros q Hq Hq'. revert Hq Hq'. cbn.
    rewrite !elem_of_cons, !elem_of_nil. intros Hq Hq'.
    destruct Hq as [->|[->|[->|[]]]]; destruct Hq' as [?|[?|[?|[]]]];
      discriminate.
  - unfold bind at 1. rewrite Hrun. unfold bind, print, ret. cbn [fs snd].
    by apply Hkeep.
Qed.

End FileProperties.

(** ** Runs of the further properties on concrete files *)

Lemma X8_witness :
  let codec := PlainCsv.codec_locked ["data/states.csv"] in
  @process_csv_file codec "data/states.csv" None "state" example_world
  = (inl (OSError "data/states.csv"), example_backup_only)
  /\ match fs example_world !! "data/states.csv" with
     | None =>
         OSError "data/states.csv" = FileNotFoundError "data/states.csv"
         /\ fs example_backup_only = fs example_world
     | Some text =>
         match @csv_parse codec text with
         | inl e0 =>
             OSError "data/states.csv" = e0
             /\ fs example_backup_only = fs example_world
         | inr df0 =>
             match getitem df0 "state" with
             | inl e1 =>
                 OSError "data/states.csv" = e1
                 /\ fs example_backup_only = fs example_world
                 /\ ((OSError "data/states.csv" = KeyError "state"
                      /\ "state" ∉ columns df0)
                     \/ (OSError "data/states.csv" = ValueError "state"
                         /\ "state" ∈ columns df0))
             | inr _ =>
                 exists path,
                   OSError "data/states.csv" = OSError path
                   /\ @csv_can_write codec path = false
                   /\ match (None : option string) with
                      | Some out =>
                          path = out
                          /\ fs example_backup_only = fs example_world
                      | None =>
                          (path
                           = PyStr.replace "data/states.csv" ".csv"
                               "_BACKUP.csv"
                           /\ fs example_backup_only = fs example_world)
                          \/ (path = "data/states.csv"
                              /\ @csv_can_write codec
                                   (PyStr.replace "data/states.csv" ".csv"
                                      "_BACKUP.csv") = true
                              /\ fs example_backup_only
                                 = <[PyStr.replace "data/states.csv" ".csv"
                                       "_BACKUP.csv"
                                       := @csv_format codec df0]>
                                     (fs example_world))
                      end
             end
         end
     end.
Proof.
  intros codec. split; [by vm_compute|].
  apply (@X8_failed_run_classified codec "data/states.csv" None "state"
           example_world (OSError "data/states.csv") example_backup_only).
  by vm_compute.
Defined.

Lemma X9_witness :
  @process_csv_file PlainCsv.codec "data/states.csv" None "state"
    example_world
  = (inr example_cleaned, example_overwritten)
  /\ (fs example_overwritten !! default "data/states.csv" None
      = Some (@csv_format PlainCsv.codec example_cleaned)
      /\ ("data/other.csv" = default "data/states.csv" None
          \/ (None = (None : option string)
              /\ "data/other.csv"
                 = PyStr.replace "data/states.csv" ".csv" "_BACKUP.csv")
          \/ fs example_overwritten !! "data/other.csv"
             = fs example_world !! "data/other.csv")).
Proof.
  split; [by vm_compute|].
  apply (@X9_run_writes_output_only PlainCsv.codec "data/states.csv" None
           "state" example_world example_cleaned example_overwritten
           "data/other.csv").
  by vm_compute.
Defined.

Lemma X10_witness :
  @process_csv_file PlainCsv.codec "data/states.csv"
    (Some "data/states_clean.csv") "state" example_world
  = (inr example_cleaned, example_exported)
  /\ @csv_parse PlainCsv.codec (@csv_format PlainCsv.codec example_cleaned)
     = inr example_cleaned
  /\ @csv_can_write PlainCsv.codec "data/states_again.csv" = true
  /\ exists w2,
       @process_csv_file PlainCsv.codec "data/states_clean.csv"
         (Some "data/states_again.csv") "state" example_exported
       = (inr example_cleaned, w2)
       /\ fs w2 !! "data/states_again.csv"
          = Some (@csv_format PlainCsv.codec example_cleaned)
       /\ fs w2 !! "data/states_again.csv"
          = fs example_exported !! "data/states_clean.csv".
Proof.
  split; [by vm_compute|]. split; [by vm_compute|]. split; [done|].
  apply (@X10_cleaning_output_again PlainCsv.codec "data/states.csv"
           "data/states_clean.csv" "data/states_again.csv" "state"
           example_world example_cleaned example_exported);
    by vm_compute.
Defined.

Lemma X11_witness :
  @process_csv_file PlainCsv.codec "data/states.csv" None "state"
    example_world
  = (inr example_cleaned, example_overwritten)
  /\ @csv_parse PlainCsv.codec (@csv_format PlainCsv.codec example_cleaned)
     = inr example_cleaned
  /\ exists w2,
       @process_csv_file PlainCsv.codec "data/states.csv" None "state"
         example_overwritten
       = (inr example_cleaned, w2)
       /\ fs w2 !! "data/states.csv"
          = Some (@csv_format PlainCsv.codec example_cleaned)
       /\ fs w2 !! PyStr.replace "data/states.csv" ".csv" "_BACKUP.csv"
          = Some (@csv_format PlainCsv.codec example_cleaned).
Proof.
  split; [by vm_compute|]. split; [by vm_compute|].
  apply (@X11_second_run_overwrites_backup PlainCsv.codec "data/states.csv"
           "state" example_world example_cleaned example_overwritten);
    by vm_compute.
Defined.

Lemma X12_witness :
  @process_csv_file PlainCsv.codec "data/states.csv" None "state"
    example_world
  = (inr example_cleaned, example_overwritten)
  /\ if occurs ".csv" "data/states.csv"
     then PyStr.replace "data/states.csv" ".csv" "_BACKUP.csv"
          <> "data/states.csv"
          /\ exists text df_original,
               fs example_world !! "data/states.csv" = Some text
               /\ @csv_parse PlainCsv.codec text = inr df_original
               /\ fs example_overwritten
                    !! PyStr.replace "data/states.csv" ".csv" "_BACKUP.csv"
                  = Some (@csv_format PlainCsv.codec df_original)
     else PyStr.replace "data/states.csv" ".csv" "_BACKUP.csv"
          = "data/states.csv"
          /\ fs example_overwritten
             = <["data/states.csv"
                   := @csv_format PlainCsv.codec example_cleaned]>
                 (fs example_world).
Proof.
  split; [by vm_compute|].
  apply (@X12_backup_kept_iff_csv_in_path PlainCsv.codec "data/states.csv"
           "state" example_world example_cleaned example_overwritten).
  by vm_compute.
Defined.

Lemma X13_witness :
  ("data/demographic.csv" ∉ files_to_process.*2)
  /\ fs (@main PlainCsv.codec ["clean_state_names.py"] batch_world).2
       !! "data/demographic.csv"
     = fs batch_world !! "data/demographic.csv".
Proof.
  assert ("data/demographic.csv" ∉ files_to_process.*2) as Hp.
  { apply (bool_decide_unpack _). by vm_compute. }
  split; [exact Hp|].
  exact (@X13_batch_writes_outputs_only PlainCsv.codec
           "clean_state_names.py" batch_world "data/demographic.csv" Hp).
Defined.

Lemma X14_witness :
  @load PlainCsv.codec (fs example_world) "data/states.csv"
  = @load PlainCsv.codec (fs unterminated_world) "data/states.csv"
  /\ @process_csv_file PlainCsv.codec "data/states.csv" None "state"
       example_world
     = (inr example_cleaned, example_overwritten)
  /\ @process_csv_file PlainCsv.codec "data/states.csv" None "state"
       unterminated_world
     = (inr example_cleaned, example_overwritten)
  /\ PyStr.replace "data/states.csv" ".csv" "_BACKUP.csv"
     <> "data/states.csv"
  /\ fs example_overwritten
       !! PyStr.replace "data/states.csv" ".csv" "_BACKUP.csv"
     = fs example_overwritten
         !! PyStr.replace "data/states.csv" ".csv" "_BACKUP.csv".
Proof.
  split; [by vm_compute|]. split; [by vm_compute|].
  split; [by vm_compute|]. split; [by vm_compute|].
  apply (@backup_depends_on_frame PlainCsv.codec "data/states.csv" "state"
           example_world unterminated_world example_cleaned example_cleaned
           example_overwritten example_overwritten);
    by vm_compute.
Defined.

Lemma X15_witness :
  @process_csv_file PlainCsv.codec "data/states.csv" None "state"
    example_world
  = (inr example_cleaned, example_overwritten)
  /\ exists text df0,
       fs example_world !! "data/states.csv" = Some text
       /\ @csv_parse PlainCsv.codec text = inr df0
       /\ len example_cleaned = len df0
       /\ columns example_cleaned = columns df0
       /\ fs example_overwritten !! default "data/states.csv" None
          = Some (@csv_format PlainCsv.codec example_cleaned).
Proof.
  split; [by vm_compute|].
  apply (@process_csv_file_rows PlainCsv.codec "data/states.csv" None
           "state" example_world example_cleaned example_overwritten).
  by vm_compute.
Defined.
